(** * Traffic-management backend: device synchronisation and fan-out core

    A shallow embedding of the socket handlers (socketHandlers.js), the REST
    routers (routes/signals.js, routes/cameras.js, routes/dashboard.js), the
    monolithic server (index.js) and the Analytics schema (models/Analytics.js),
    followed by the properties of the synchronisation layer.

    Conventions of the embedding:
    - a JavaScript value is a [value]; a Mongoose document is an object value;
    - a handler is a computation in the monad [M]: it threads the server
      state (collections and room membership), records what it emits, logs
      and answers, and may throw; [try_catch] is JavaScript's try/catch;
    - what the environment decides for one handler run (the clock, the
      process environment, whether the store rejects) is a [world];
    - one handler run reads one instant from the clock;
    - a REST handler starts where authenticateToken and isOperator have let
      the request through, with the parsed body; the payload of a socket
      event is an object whose [id] and [type] are strings;
    - the store keeps documents as they are handed to it: casting and
      validation against the Mongoose schemas are not modelled, except for
      the defaults and required fields of newly built documents; a [$set]
      leaves out the fields whose value is undefined;
    - JavaScript numbers are rationals: the arithmetic used here (sums and
      means of small counts, comparison with 1.5 and 2.5) is exact on them. *)

From Stdlib Require Import ZArith QArith Qround Ascii String List Bool Lia Lqa.
From stdpp Require Import gmap strings list fin_maps pretty.
Import ListNotations.

#[local] Set Warnings "-register-all".

Local Open Scope string_scope.
Local Open Scope Z_scope.
Local Open Scope list_scope.

(* ===================================================================== *)
(** ** JavaScript values *)
(* ===================================================================== *)

Inductive value : Type :=
| VUndef
| VNull
| VBool (b : bool)
| VNum (q : Q)
| VStr (s : string)
| VDate (ms : Z)
| VArr (items : list value)
| VObj (fields : list (string * value)).

Abbreviation fields := (list (string * value)).

(** JavaScript truthiness, as used by [||] and [if]. *)
Definition truthy (v : value) : bool :=
  match v with
  | VUndef | VNull => false
  | VBool b => b
  | VNum q => negb (Qeq_bool q 0)
  | VStr s => negb (String.eqb s "")
  | VDate _ | VArr _ | VObj _ => true
  end.

(** [a || b] *)
Definition js_or (a b : value) : value := if truthy a then a else b.

(** Own-property lookup in a field list; a missing key reads [undefined]. *)
Fixpoint get_field (k : string) (fs : fields) : value :=
  match fs with
  | [] => VUndef
  | (k', v) :: rest => if String.eqb k k' then v else get_field k rest
  end.

(** Assignment [o.k = v]: overwrite in place, or append a new key. *)
Fixpoint set_field (k : string) (v : value) (fs : fields) : fields :=
  match fs with
  | [] => [(k, v)]
  | (k', v') :: rest =>
      if String.eqb k k' then (k, v) :: rest else (k', v') :: set_field k v rest
  end.

(** [v.k] where [v] is known not to be null or undefined (a parsed request
    body, a document): primitives have no own properties. *)
Definition prop (v : value) (k : string) : value :=
  match v with
  | VObj fs => get_field k fs
  | _ => VUndef
  end.

(** Strict inequality [a !== b] between a received value and an entry of
    [process.env], which is a string or undefined. *)
Definition strict_neq_env (a : value) (e : option string) : bool :=
  match a, e with
  | VUndef, None => false
  | VStr s, Some s' => negb (String.eqb s s')
  | _, _ => true
  end.

(* ===================================================================== *)
(** ** Server state, world and the handler monad *)
(* ===================================================================== *)

Inductive model := Camera | Signal.

#[global] Instance model_eq_dec : EqDecision model.
Proof. solve_decision. Defined.

Record state := {
  cameras : gmap string fields;     (* Camera collection, by _id *)
  signals : gmap string fields;     (* Signal collection, by _id *)
  analytics : list fields;          (* Analytics collection, insertion order *)
  rooms : gset (nat * string)       (* (socket, room) memberships *)
}.

Record world := {
  now : Z;                          (* Date.now() / new Date() *)
  DEVICE_API_KEY : option string;   (* process.env.DEVICE_API_KEY *)
  store_fault : bool;               (* the store rejects this run's operations *)
  jwt_verify : value -> bool;       (* jwt.verify(token, secret) does not throw *)
  to_string : value -> string       (* ToString, as applied by a template literal *)
}.

Inductive target :=
| ToRoom (room : string)            (* io.to(room) *)
| ToSocket (sid : nat)              (* socket.emit *)
| ToAll.                            (* io.emit *)

Inductive action :=
| Emit (to : target) (event : string) (payload : value)
| Respond (status : Z) (body : value)
| Log (msg : string).

Inductive result (A : Type) :=
| Ret (a : A)
| Throw (err : string).
Arguments Ret {A} a.
Arguments Throw {A} err.

Definition M (A : Type) : Type := state -> result A * state * list action.

Definition ret {A} (a : A) : M A := fun s => (Ret a, s, []).

Definition throw {A} (err : string) : M A := fun s => (Throw err, s, []).

Definition bind {A B} (m : M A) (k : A -> M B) : M B :=
  fun s =>
    match m s with
    | (Ret a, s1, out1) =>
        match k a s1 with
        | (r, s2, out2) => (r, s2, out1 ++ out2)
        end
    | (Throw e, s1, out1) => (Throw e, s1, out1)
    end.

(** [try { m } catch (error) { h error }]: state changes and emissions made
    before the throw stay. *)
Definition try_catch (m : M unit) (h : string -> M unit) : M unit :=
  fun s =>
    match m s with
    | (Ret a, s1, out1) => (Ret a, s1, out1)
    | (Throw e, s1, out1) =>
        match h e s1 with
        | (r, s2, out2) => (r, s2, out1 ++ out2)
        end
    end.

Notation "'let*' x ':=' m 'in' k" := (bind m (fun x => k))
  (at level 10, x name, m at level 99, k at level 200).
Notation "m ';;' k" := (bind m (fun _ => k))
  (at level 100, k at level 200, right associativity).

Definition do (a : action) : M unit := fun s => (Ret tt, s, [a]).

Definition emit (to : target) (event : string) (payload : value) : M unit :=
  do (Emit to event payload).

Definition respond (status : Z) (body : value) : M unit :=
  do (Respond status body).

Definition console (msg : string) : M unit := do (Log msg).

(** [socket.join(room)] *)
Definition join (sid : nat) (room : string) : M unit :=
  fun s =>
    (Ret tt,
     {| cameras := cameras s; signals := signals s; analytics := analytics s;
        rooms := {[ (sid, room) ]} ∪ rooms s |},
     []).

(** null or undefined. *)
Definition nullish (v : value) : bool :=
  match v with
  | VUndef | VNull => true
  | _ => false
  end.

(** [v.k] for a value that may be null or undefined: that access throws. *)
Definition member (v : value) (k : string) : M value :=
  if nullish v then throw "TypeError" else ret (prop v k).

Definition message (text : string) : value := VObj [("message", VStr text)].

(* ===================================================================== *)
(** ** The device store (Mongoose model operations) *)
(* ===================================================================== *)

Definition coll (m : model) (s : state) : gmap string fields :=
  match m with
  | Camera => cameras s
  | Signal => signals s
  end.

Definition set_coll (m : model) (c : gmap string fields) (s : state) : state :=
  match m with
  | Camera => {| cameras := c; signals := signals s;
                 analytics := analytics s; rooms := rooms s |}
  | Signal => {| cameras := cameras s; signals := c;
                 analytics := analytics s; rooms := rooms s |}
  end.

(** The document read back from the store: its fields under its [_id]. *)
Definition load (id : string) (d : fields) : value :=
  VObj (("_id", VStr id) :: d).

Definition doc_id (d : value) : string :=
  match prop d "_id" with
  | VStr s => s
  | _ => "undefined"
  end.

(** [$set]: assign every listed field in order; a field whose value is
    undefined is left out of the update. *)
Definition defined (v : value) : bool :=
  match v with
  | VUndef => false
  | _ => true
  end.

Definition apply_set (upd : fields) (d : fields) : fields :=
  fold_left
    (fun acc kv => if defined (snd kv) then set_field (fst kv) (snd kv) acc
                   else acc)
    upd d.

Arguments apply_set : simpl never.

(** A field list without its [_id] entry. *)
Definition without_id (fs : fields) : fields :=
  List.filter (fun kv => negb (String.eqb (fst kv) "_id")) fs.

(** An update of [_id] to another value is refused by the store. *)
Definition moves_id (id : string) (upd : fields) : bool :=
  match get_field "_id" upd with
  | VUndef => false
  | VStr s => negb (String.eqb s id)
  | _ => true
  end.

(** An awaited store operation: rejected as a whole when the store is at
    fault in this run. *)
Definition await {A} (w : world) (op : state -> result A * state) : M A :=
  fun s =>
    if store_fault w then (Throw "StoreError", s, [])
    else match op s with
         | (r, s') => (r, s', [])
         end.

(** [Model.findById(id)] *)
Definition findById (w : world) (m : model) (id : string) : M value :=
  await w (fun s =>
    match coll m s !! id with
    | None => (Ret VNull, s)
    | Some d => (Ret (load id d), s)
    end).

(** [Model.findByIdAndUpdate(id, { $set: upd }, { new: true })] *)
Definition findByIdAndUpdate (w : world) (m : model) (id : string)
    (upd : fields) : M value :=
  await w (fun s =>
    match coll m s !! id with
    | None => (Ret VNull, s)
    | Some d =>
        if moves_id id upd then (Throw "StoreError", s)
        else
          let d' := apply_set (without_id upd) d in
          (Ret (load id d'), set_coll m (<[id := d']> (coll m s)) s)
    end).

(** [Model.findByIdAndDelete(id)] *)
Definition findByIdAndDelete (w : world) (m : model) (id : string) : M value :=
  await w (fun s =>
    match coll m s !! id with
    | None => (Ret VNull, s)
    | Some d => (Ret (load id d), set_coll m (delete id (coll m s)) s)
    end).

(** [doc.save()] of a document read from the store. *)
Definition save (w : world) (m : model) (id : string) (d : fields) : M unit :=
  await w (fun s => (Ret tt, set_coll m (<[id := d]> (coll m s)) s)).

(** [doc.save()] of a newly built document; [id] is the ObjectId the driver
    generated for it. The [required] validators run first. *)
Definition required (v : value) : bool :=
  match v with
  | VUndef | VNull => false
  | VStr s => negb (String.eqb s "")
  | _ => true
  end.

Definition save_new (w : world) (m : model) (req : list string) (id : string)
    (d : fields) : M value :=
  await w (fun s =>
    if negb (forallb (fun k => required (get_field k d)) req)
    then (Throw "ValidationError", s)
    else match coll m s !! id with
         | Some _ => (Throw "StoreError", s)
         | None => (Ret (load id d), set_coll m (<[id := d]> (coll m s)) s)
         end).

(** [Model.find()] : every document of the collection. *)
Definition find_all (w : world) (m : model) : M (list (string * fields)) :=
  await w (fun s => (Ret (map_to_list (coll m s)), s)).

(** The field list of a document value. *)
Definition fields_of (v : value) : fields :=
  match v with
  | VObj fs => fs
  | _ => []
  end.

(** The fields of a loaded document without its [_id]. *)
Definition body_of (v : value) : fields := without_id (fields_of v).

(* ===================================================================== *)
(** ** routes/signals.js *)
(* ===================================================================== *)

Module SignalRoutes.

(** Defaults of models/Signal.js. *)
Definition defaults (w : world) : fields :=
  [ ("status", VStr "offline"); ("mode", VStr "AI");
    ("currentPhase", VStr "North-South Green"); ("remainingTime", VStr "0s");
    ("congestionLevel", VStr "Unknown");
    ("settings", VObj [("phases", VArr []);
                       ("schedule", VObj [("enabled", VBool false);
                                          ("timings", VArr [])])]);
    ("createdAt", VDate (now w)) ].

(** router.post('/') *)
Definition post (w : world) (newid : string) (body : value) : M unit :=
  try_catch
    (let name := prop body "name" in
     let location := prop body "location" in
     let coordinates := prop body "coordinates" in
     let ipAddress := prop body "ipAddress" in
     let* signal :=
       save_new w Signal ["name"; "location"] newid
         (apply_set [("name", name); ("location", location);
                     ("coordinates", coordinates); ("ipAddress", ipAddress)]
                    (defaults w)) in
     emit (ToRoom "admin") "signalUpdate" signal ;;
     respond 201 signal)
    (fun err =>
       console "Create signal error:" ;;
       respond 500 (message "Server error")).

(** router.put('/:id') *)
Definition put (w : world) (id : string) (body : value) : M unit :=
  try_catch
    (let name := prop body "name" in
     let location := prop body "location" in
     let coordinates := prop body "coordinates" in
     let ipAddress := prop body "ipAddress" in
     let status := prop body "status" in
     let mode := prop body "mode" in
     let currentPhase := prop body "currentPhase" in
     let remainingTime := prop body "remainingTime" in
     let* signal :=
       findByIdAndUpdate w Signal id
         [("name", name); ("location", location);
          ("coordinates", coordinates); ("ipAddress", ipAddress);
          ("status", status); ("mode", mode);
          ("currentPhase", currentPhase);
          ("remainingTime", remainingTime)] in
     if negb (truthy signal) then
       respond 404 (message "Signal not found")
     else
       emit (ToRoom "admin") "signalUpdate" signal ;;
       (if truthy (js_or mode currentPhase) then
          emit (ToRoom ("signal-" +:+ doc_id signal)) "configUpdate"
            (VObj [("mode", mode); ("currentPhase", currentPhase);
                   ("remainingTime", remainingTime)])
        else ret tt) ;;
       respond 200 signal)
    (fun err =>
       console "Update signal error:" ;;
       respond 500 (message "Server error")).

(** router.delete('/:id') *)
Definition delete (w : world) (id : string) : M unit :=
  try_catch
    (let* signal := findByIdAndDelete w Signal id in
     if negb (truthy signal) then
       respond 404 (message "Signal not found")
     else
       emit (ToRoom "admin") "signalDeleted" (VObj [("id", VStr id)]) ;;
       respond 200 (message "Signal deleted successfully"))
    (fun err =>
       console "Delete signal error:" ;;
       respond 500 (message "Server error")).

(** router.put('/:id/settings') *)
Definition put_settings (w : world) (id : string) (body : value) : M unit :=
  try_catch
    (let settings := prop body "settings" in
     let* signal := findByIdAndUpdate w Signal id [("settings", settings)] in
     if negb (truthy signal) then
       respond 404 (message "Signal not found")
     else
       emit (ToRoom "admin") "signalUpdate" signal ;;
       emit (ToRoom ("signal-" +:+ doc_id signal)) "configUpdate" settings ;;
       respond 200 signal)
    (fun err =>
       console "Update settings error:" ;;
       respond 500 (message "Server error")).

(** router.post('/:id/control') *)
Definition control (w : world) (id : string) (body : value) : M unit :=
  try_catch
    (let phase := prop body "phase" in
     let duration := prop body "duration" in
     let mode := prop body "mode" in
     let* signal := findById w Signal id in
     if negb (truthy signal) then
       respond 404 (message "Signal not found")
     else
       let d0 := body_of signal in
       let d1 := set_field "mode" (js_or mode (VStr "Manual")) d0 in
       let d2 := if truthy phase then set_field "currentPhase" phase d1
                 else d1 in
       let d3 := if truthy duration
                 then set_field "remainingTime"
                        (VStr (to_string w duration +:+ "s")) d2
                 else d2 in
       save w Signal id d3 ;;
       let signal := load id d3 in
       emit (ToRoom "admin") "signalUpdate" signal ;;
       emit (ToRoom ("signal-" +:+ doc_id signal)) "controlCommand"
         (VObj [("mode", prop signal "mode");
                ("phase", prop signal "currentPhase");
                ("duration", duration)]) ;;
       respond 200 signal)
    (fun err =>
       console "Signal control error:" ;;
       respond 500 (message "Server error")).

End SignalRoutes.

(* ===================================================================== *)
(** ** routes/cameras.js *)
(* ===================================================================== *)

Module CameraRoutes.

(** Defaults of models/Camera.js. *)
Definition defaults (w : world) : fields :=
  [ ("model", VStr "ESP32-CAM"); ("firmware", VStr "v2.4.1");
    ("status", VStr "offline");
    ("settings", VObj [("resolution", VStr "640x480");
                       ("frameRate", VNum (15 # 1));
                       ("nightMode", VBool false);
                       ("brightness", VNum (50 # 1));
                       ("contrast", VNum (50 # 1))]);
    ("createdAt", VDate (now w)) ].

(** router.post('/') *)
Definition post (w : world) (newid : string) (body : value) : M unit :=
  try_catch
    (let name := prop body "name" in
     let location := prop body "location" in
     let coordinates := prop body "coordinates" in
     let ipAddress := prop body "ipAddress" in
     let model := prop body "model" in
     let firmware := prop body "firmware" in
     let* camera :=
       save_new w Camera ["name"; "location"] newid
         (apply_set [("name", name); ("location", location);
                     ("coordinates", coordinates); ("ipAddress", ipAddress);
                     ("model", model); ("firmware", firmware)]
                    (defaults w)) in
     emit (ToRoom "admin") "cameraUpdate" camera ;;
     respond 201 camera)
    (fun err =>
       console "Create camera error:" ;;
       respond 500 (message "Server error")).

(** router.put('/:id') *)
Definition put (w : world) (id : string) (body : value) : M unit :=
  try_catch
    (let name := prop body "name" in
     let location := prop body "location" in
     let coordinates := prop body "coordinates" in
     let ipAddress := prop body "ipAddress" in
     let status := prop body "status" in
     let settings := prop body "settings" in
     let* camera :=
       findByIdAndUpdate w Camera id
         [("name", name); ("location", location);
          ("coordinates", coordinates); ("ipAddress", ipAddress);
          ("status", status); ("settings", settings)] in
     if negb (truthy camera) then
       respond 404 (message "Camera not found")
     else
       emit (ToRoom "admin") "cameraUpdate" camera ;;
       emit (ToRoom ("camera-" +:+ doc_id camera)) "configUpdate" settings ;;
       respond 200 camera)
    (fun err =>
       console "Update camera error:" ;;
       respond 500 (message "Server error")).

(** router.delete('/:id') *)
Definition delete (w : world) (id : string) : M unit :=
  try_catch
    (let* camera := findByIdAndDelete w Camera id in
     if negb (truthy camera) then
       respond 404 (message "Camera not found")
     else
       emit (ToRoom "admin") "cameraDeleted" (VObj [("id", VStr id)]) ;;
       respond 200 (message "Camera deleted successfully"))
    (fun err =>
       console "Delete camera error:" ;;
       respond 500 (message "Server error")).

(** router.put('/:id/settings') *)
Definition put_settings (w : world) (id : string) (body : value) : M unit :=
  try_catch
    (let settings := prop body "settings" in
     let* camera := findByIdAndUpdate w Camera id [("settings", settings)] in
     if negb (truthy camera) then
       respond 404 (message "Camera not found")
     else
       emit (ToRoom "admin") "cameraUpdate" camera ;;
       emit (ToRoom ("camera-" +:+ doc_id camera)) "configUpdate" settings ;;
       respond 200 camera)
    (fun err =>
       console "Update settings error:" ;;
       respond 500 (message "Server error")).

End CameraRoutes.

(* ===================================================================== *)
(** ** Aggregation operators of the store *)
(* ===================================================================== *)

Definition numeric (v : value) : option Q :=
  match v with
  | VNum q => Some q
  | _ => None
  end.

Definition Qsum (qs : list Q) : Q := fold_right Qplus 0%Q qs.

(** Arithmetic mean of a non-empty list. *)
Definition mean (qs : list Q) : Q :=
  (Qsum qs / inject_Z (Z.of_nat (length qs)))%Q.

(** [$avg]: the mean of the numeric values, null when there is none. *)
Definition avg (vs : list value) : value :=
  match omap numeric vs with
  | [] => VNull
  | qs => VNum (mean qs)
  end.

(** [$push: '$k']: the values of field [k], documents without it skipped. *)
Definition push (k : string) (docs : list fields) : list value :=
  omap (fun d => match get_field k d with
                 | VUndef => None
                 | v => Some v
                 end) docs.

(** [$match: { timestamp: { $gte: t } }] *)
Definition since (t : Z) (d : fields) : bool :=
  match get_field "timestamp" d with
  | VDate ms => t <=? ms
  | _ => false
  end.

Definition day_ms : Z := 24 * 60 * 60 * 1000.

(** [x < y] on numbers. *)
Definition Qltb (x y : Q) : bool := negb (Qle_bool y x).

(* ===================================================================== *)
(** ** socketHandlers.js *)
(* ===================================================================== *)

Record control_data := { ctl_id : string; ctl_settings : value }.
Record connect_data :=
  { con_type : string; con_id : string; con_apiKey : value }.
Record device_data :=
  { dev_type : string; dev_id : string; dev_metrics : value }.

Module Sockets.

(** socket.on('authenticate') *)
Definition authenticate (w : world) (sid : nat) (token : value) : M unit :=
  try_catch
    (if jwt_verify w token then
       join sid "admin" ;;
       console "User joined admin room"
     else throw "JsonWebTokenError")
    (fun err => console "Authentication error:").

(** socket.on('cameraControl') *)
Definition cameraControl (w : world) (sid : nat) (data : control_data)
    : M unit :=
  try_catch
    (let* camera :=
       findByIdAndUpdate w Camera (ctl_id data)
         (fields_of (ctl_settings data)) in
     emit (ToRoom "admin") "cameraUpdate" camera ;;
     emit (ToRoom ("camera-" +:+ ctl_id data)) "configUpdate"
       (ctl_settings data))
    (fun err =>
       console "Camera control error:" ;;
       emit (ToSocket sid) "error" (message "Failed to control camera")).

(** socket.on('signalControl') *)
Definition signalControl (w : world) (sid : nat) (data : control_data)
    : M unit :=
  try_catch
    (let* signal :=
       findByIdAndUpdate w Signal (ctl_id data)
         (fields_of (ctl_settings data)) in
     emit (ToRoom "admin") "signalUpdate" signal ;;
     emit (ToRoom ("signal-" +:+ ctl_id data)) "configUpdate"
       (ctl_settings data))
    (fun err =>
       console "Signal control error:" ;;
       emit (ToSocket sid) "error" (message "Failed to control signal")).

(** socket.on('deviceConnect') *)
Definition deviceConnect (w : world) (sid : nat) (data : connect_data)
    : M unit :=
  try_catch
    (let type := con_type data in
     let id := con_id data in
     let apiKey := con_apiKey data in
     (if strict_neq_env apiKey (DEVICE_API_KEY w)
      then throw "Invalid API key" else ret tt) ;;
     join sid (type +:+ "-" +:+ id) ;;
     (if String.eqb type "camera" then
        let* device :=
          findByIdAndUpdate w Camera id
            [("status", VStr "online"); ("lastSeen", VDate (now w))] in
        emit (ToRoom "admin") "cameraUpdate" device
      else if String.eqb type "signal" then
        let* device :=
          findByIdAndUpdate w Signal id
            [("status", VStr "online"); ("lastSeen", VDate (now w))] in
        emit (ToRoom "admin") "signalUpdate" device
      else ret tt) ;;
     console "Device connected")
    (fun err =>
       console "Device connection error:" ;;
       emit (ToSocket sid) "error" (message "Authentication failed")).

(** The document handed to [Analytics.create]. *)
Definition new_sample (w : world) (vehicleCount congestionLevel averageSpeed
    vehicleTypes junctionId : value) : fields :=
  apply_set
    [ ("timestamp", VDate (now w));
      ("trafficVolume", js_or vehicleCount (VNum 0));
      ("congestionLevel", js_or congestionLevel (VStr "Low"));
      ("averageSpeed", js_or averageSpeed (VNum 0));
      ("vehicleTypes",
       js_or vehicleTypes
         (VObj [("cars", VNum 0); ("motorcycles", VNum 0);
                ("trucks", VNum 0)]));
      ("junctionId", junctionId) ]
    [].

(** The [$match] / [$group] pipeline of processTrafficAnalytics: one
    group over the trailing 24 hours, none when the window is empty. *)
Definition aggregate_day (w : world) (docs : list fields) : list value :=
  match List.filter (since (now w - day_ms)) docs with
  | [] => []
  | window =>
      [ VObj [ ("_id", VNull);
               ("averageTrafficVolume",
                avg (map (get_field "trafficVolume") window));
               ("averageSpeed",
                avg (map (get_field "averageSpeed") window));
               ("vehicleTypesAggregate",
                VArr (push "vehicleTypes" window)) ] ]
  end.

(** async function processTrafficAnalytics(metrics, io) *)
Definition processTrafficAnalytics (w : world) (metrics : value) : M unit :=
  try_catch
    (let* vehicleCount := member metrics "vehicleCount" in
     let* congestionLevel := member metrics "congestionLevel" in
     let* averageSpeed := member metrics "averageSpeed" in
     let* vehicleTypes := member metrics "vehicleTypes" in
     let* junctionId := member metrics "junctionId" in
     await w (fun s =>
       (Ret tt,
        {| cameras := cameras s; signals := signals s;
           analytics :=
             analytics s ++
             [new_sample w vehicleCount congestionLevel averageSpeed
                vehicleTypes junctionId];
           rooms := rooms s |})) ;;
     let* aggregatedData :=
       await w (fun s => (Ret (aggregate_day w (analytics s)), s)) in
     match aggregatedData with
     | first :: _ => emit (ToRoom "admin") "analyticsUpdate" first
     | [] => ret tt
     end)
    (fun err => console "Analytics processing error:").

(** socket.on('deviceData') *)
Definition deviceData (w : world) (sid : nat) (data : device_data)
    : M unit :=
  try_catch
    (let type := dev_type data in
     let id := dev_id data in
     let metrics := dev_metrics data in
     if String.eqb type "camera" then
       let* camera :=
         findByIdAndUpdate w Camera id
           [("lastSeen", VDate (now w)); ("metrics", metrics)] in
       emit (ToRoom "admin") "cameraUpdate" camera ;;
       processTrafficAnalytics w metrics
     else if String.eqb type "signal" then
       let* currentPhase := member metrics "currentPhase" in
       let* remainingTime := member metrics "remainingTime" in
       let* signal :=
         findByIdAndUpdate w Signal id
           [("lastSeen", VDate (now w)); ("currentPhase", currentPhase);
            ("remainingTime", remainingTime); ("metrics", metrics)] in
       emit (ToRoom "admin") "signalUpdate" signal
     else ret tt)
    (fun err => console "Device data update error:").

End Sockets.

(* ===================================================================== *)
(** ** routes/dashboard.js: the 24-hour traffic trend of GET /overview *)
(* ===================================================================== *)

Module Calendar.

Definition hour_ms : Z := 60 * 60 * 1000.

(** [$hour]: hour of the day, UTC. *)
Definition hour (ms : Z) : Z := (ms / hour_ms) mod 24.

(** Days since the epoch. *)
Definition days (ms : Z) : Z := ms / day_ms.

(** Gregorian date of a day number: (year, month, day of month). *)
Definition civil (dn : Z) : Z * Z * Z :=
  let z := dn + 719468 in
  let era := z / 146097 in
  let doe := z - era * 146097 in
  let yoe := (doe - doe / 1460 + doe / 36524 - doe / 146096) / 365 in
  let doy := doe - (365 * yoe + yoe / 4 - yoe / 100) in
  let mp := (5 * doy + 2) / 153 in
  let d := doy - (153 * mp + 2) / 5 + 1 in
  let m := if mp <? 10 then mp + 3 else mp - 9 in
  let y := yoe + era * 400 + (if m <=? 2 then 1 else 0) in
  (y, m, d).

(** [$year], [$month], [$dayOfMonth], UTC. *)
Definition year (ms : Z) : Z := fst (fst (civil (days ms))).
Definition month (ms : Z) : Z := snd (fst (civil (days ms))).
Definition dayOfMonth (ms : Z) : Z := snd (civil (days ms)).

End Calendar.

Module Dashboard.

(** The [_id] of a group: year, month, day and hour of the timestamp. *)
Record bucket_id := { year : Z; month : Z; day : Z; hour : Z }.

Record bucket := {
  _id : bucket_id;
  averageTrafficVolume : value;
  averageCongestion : Q
}.

Record trend_point := {
  time : string;
  trafficVolume : value;
  congestionLevel : string
}.

Definition bucket_of (ms : Z) : bucket_id :=
  {| year := Calendar.year ms; month := Calendar.month ms;
     day := Calendar.dayOfMonth ms; hour := Calendar.hour ms |}.

Definition stamp (d : fields) : Z :=
  match get_field "timestamp" d with
  | VDate ms => ms
  | _ => 0
  end.

Definition same_bucket (a b : bucket_id) : bool :=
  (year a =? year b) && (month a =? month b)
  && (day a =? day b) && (hour a =? hour b).

(** The nested [$cond]: High is 3, Moderate is 2, anything else is 1. *)
Definition congestion_score (label : value) : Q :=
  match label with
  | VStr s =>
      if String.eqb s "High" then 3%Q
      else if String.eqb s "Moderate" then 2%Q
      else 1%Q
  | _ => 1%Q
  end.

(** Distinct group keys, in order of first occurrence. *)
Fixpoint distinct (ks : list bucket_id) : list bucket_id :=
  match ks with
  | [] => []
  | k :: rest =>
      k :: List.filter (fun k' => negb (same_bucket k' k)) (distinct rest)
  end.

(** The members of group [k]. *)
Definition members (k : bucket_id) (window : list fields) : list fields :=
  List.filter (fun d => same_bucket (bucket_of (stamp d)) k) window.

Definition group (window : list fields) : list bucket :=
  map (fun k =>
         let g := members k window in
         {| _id := k;
            averageTrafficVolume := avg (map (get_field "trafficVolume") g);
            averageCongestion :=
              mean (map (fun d => congestion_score
                                    (get_field "congestionLevel" d)) g) |})
      (distinct (map (fun d => bucket_of (stamp d)) window)).

(** [$sort] on year, month, day, hour, ascending. *)
Definition before (a b : bucket_id) : bool :=
  if year a <? year b then true else if year b <? year a then false else
  if month a <? month b then true else if month b <? month a then false else
  if day a <? day b then true else if day b <? day a then false else
  hour a <=? hour b.

Fixpoint insert_sorted (b : bucket) (bs : list bucket) : list bucket :=
  match bs with
  | [] => [b]
  | b' :: rest =>
      if before (_id b) (_id b') then b :: b' :: rest
      else b' :: insert_sorted b rest
  end.

Definition sort (bs : list bucket) : list bucket :=
  fold_right insert_sorted [] bs.

(** The aggregation pipeline [hourlyTraffic]. *)
Definition hourlyTraffic (w : world) (docs : list fields) : list bucket :=
  let last24Hours := now w - day_ms in
  sort (group (List.filter (since last24Hours) docs)).

(** [Math.round] of the result of [$avg], a number or null. *)
Definition math_round (v : value) : value :=
  match v with
  | VNum q => VNum (inject_Z (Qfloor (q + (1 # 2))%Q))
  | _ => VNum 0
  end.

(** The label of an averaged score. *)
Definition trend_label (averageCongestion : Q) : string :=
  if Qltb averageCongestion (3 # 2) then "Low"
  else if Qltb averageCongestion (5 # 2) then "Moderate"
  else "High".

(** [trafficTrend: hourlyTraffic.map(...)] *)
Definition trafficTrend (hourlyTraffic : list bucket) : list trend_point :=
  map (fun hr =>
         {| time := pretty (hour (_id hr)) +:+ ":00";
            trafficVolume := math_round (averageTrafficVolume hr);
            congestionLevel := trend_label (averageCongestion hr) |})
      hourlyTraffic.

End Dashboard.

(* ===================================================================== *)
(** ** index.js: the monolithic server, its simulator and its demo data *)
(* ===================================================================== *)

Module Index.

(** Defaults of cameraSchema and signalSchema. *)
Definition camera_defaults (w : world) : fields :=
  [ ("status", VStr "offline"); ("model", VStr "ESP32-CAM");
    ("firmware", VStr "v2.4.1"); ("lastUpdate", VDate (now w)) ].

Definition signal_defaults (w : world) : fields :=
  [ ("status", VStr "offline"); ("mode", VStr "Scheduled");
    ("currentPhase", VStr "All-Way Red"); ("remainingTime", VStr "0s");
    ("congestionLevel", VStr "Unknown"); ("lastUpdate", VDate (now w)) ].

(** [if (v) doc.k = v] *)
Definition assign_if (k : string) (v : value) (d : fields) : fields :=
  if truthy v then set_field k v d else d.

(** app.post('/api/cameras') *)
Definition cameras_post (w : world) (newid : string) (body : value)
    : M unit :=
  try_catch
    (let name := prop body "name" in
     let location := prop body "location" in
     let ipAddress := prop body "ipAddress" in
     let* camera :=
       save_new w Camera ["name"; "location"; "ipAddress"] newid
         (apply_set [("name", name); ("location", location);
                     ("ipAddress", ipAddress); ("status", VStr "offline")]
                    (camera_defaults w)) in
     emit ToAll "cameraUpdate" camera ;;
     respond 201 camera)
    (fun err =>
       console "Error creating camera:" ;;
       respond 500 (message "Server error")).

(** app.put('/api/cameras/:id') *)
Definition cameras_put (w : world) (id : string) (body : value) : M unit :=
  try_catch
    (let name := prop body "name" in
     let location := prop body "location" in
     let ipAddress := prop body "ipAddress" in
     let status := prop body "status" in
     let* camera := findById w Camera id in
     if negb (truthy camera) then
       respond 404 (message "Camera not found")
     else
       let d :=
         set_field "lastUpdate" (VDate (now w))
           (assign_if "status" status
              (assign_if "ipAddress" ipAddress
                 (assign_if "location" location
                    (assign_if "name" name (body_of camera))))) in
       save w Camera id d ;;
       emit ToAll "cameraUpdate" (load id d) ;;
       respond 200 (load id d))
    (fun err =>
       console "Error updating camera:" ;;
       respond 500 (message "Server error")).

(** app.delete('/api/cameras/:id') *)
Definition cameras_delete (w : world) (id : string) : M unit :=
  try_catch
    (let* camera := findByIdAndDelete w Camera id in
     if negb (truthy camera) then
       respond 404 (message "Camera not found")
     else
       emit ToAll "cameraRemoved" (VObj [("id", VStr id)]) ;;
       respond 200 (message "Camera removed successfully"))
    (fun err =>
       console "Error deleting camera:" ;;
       respond 500 (message "Server error")).

(** app.post('/api/signals') *)
Definition signals_post (w : world) (newid : string) (body : value)
    : M unit :=
  try_catch
    (let name := prop body "name" in
     let location := prop body "location" in
     let mode := prop body "mode" in
     let* signal :=
       save_new w Signal ["name"; "location"] newid
         (apply_set [("name", name); ("location", location);
                     ("mode", js_or mode (VStr "Scheduled"));
                     ("status", VStr "offline")]
                    (signal_defaults w)) in
     emit ToAll "signalUpdate" signal ;;
     respond 201 signal)
    (fun err =>
       console "Error creating signal:" ;;
       respond 500 (message "Server error")).

(** app.put('/api/signals/:id') *)
Definition signals_put (w : world) (id : string) (body : value) : M unit :=
  try_catch
    (let name := prop body "name" in
     let location := prop body "location" in
     let status := prop body "status" in
     let mode := prop body "mode" in
     let currentPhase := prop body "currentPhase" in
     let congestionLevel := prop body "congestionLevel" in
     let* signal := findById w Signal id in
     if negb (truthy signal) then
       respond 404 (message "Signal not found")
     else
       let d :=
         set_field "lastUpdate" (VDate (now w))
           (assign_if "congestionLevel" congestionLevel
              (assign_if "currentPhase" currentPhase
                 (assign_if "mode" mode
                    (assign_if "status" status
                       (assign_if "location" location
                          (assign_if "name" name (body_of signal))))))) in
       save w Signal id d ;;
       emit ToAll "signalUpdate" (load id d) ;;
       respond 200 (load id d))
    (fun err =>
       console "Error updating signal:" ;;
       respond 500 (message "Server error")).

(** app.delete('/api/signals/:id') *)
Definition signals_delete (w : world) (id : string) : M unit :=
  try_catch
    (let* signal := findByIdAndDelete w Signal id in
     if negb (truthy signal) then
       respond 404 (message "Signal not found")
     else
       emit ToAll "signalRemoved" (VObj [("id", VStr id)]) ;;
       respond 200 (message "Signal removed successfully"))
    (fun err =>
       console "Error deleting signal:" ;;
       respond 500 (message "Server error")).





(** [Model.insertMany(docs)]; [ids] are the generated ObjectIds. *)
Definition insertMany (w : world) (m : model) (ids : list string)
    (docs : list fields) : M unit :=
  await w (fun s =>
    (Ret tt,
     set_coll m
       (fold_left (fun c kd => <[fst kd := snd kd]> c)
                  (combine ids docs) (coll m s))
       s)).

Definition demo_camera (w : world) (name location ipAddress status : string)
    : fields :=
  apply_set [("name", VStr name); ("location", VStr location);
             ("ipAddress", VStr ipAddress); ("status", VStr status)]
            (camera_defaults w).

Definition demo_signal (w : world)
    (name location status mode currentPhase remainingTime
     congestionLevel : string) : fields :=
  apply_set [("name", VStr name); ("location", VStr location);
             ("status", VStr status); ("mode", VStr mode);
             ("currentPhase", VStr currentPhase);
             ("remainingTime", VStr remainingTime);
             ("congestionLevel", VStr congestionLevel)]
            (signal_defaults w).

(** createDemoData *)
Definition createDemoData (w : world) (camera_ids signal_ids : list string)
    : M unit :=
  try_catch
    (let* cameras := find_all w Camera in
     (if (length cameras =? 0)%nat then
        insertMany w Camera camera_ids
          [ demo_camera w "Junction 1 - North" "Main St & 1st Ave"
              "192.168.1.11" "online";
            demo_camera w "Junction 1 - South" "Main St & 1st Ave"
              "192.168.1.12" "online";
            demo_camera w "Junction 2 - East" "Broadway & 5th St"
              "192.168.1.13" "offline";
            demo_camera w "Junction 3 - West" "Park Ave & 3rd St"
              "192.168.1.14" "online";
            demo_camera w "Highway Entrance" "Highway 101 Entrance"
              "192.168.1.15" "online";
            demo_camera w "CBD Area" "Financial District"
              "192.168.1.16" "online";
            demo_camera w "Shopping Mall" "City Mall Entrance"
              "192.168.1.17" "warning";
            demo_camera w "School Zone" "Elementary School"
              "192.168.1.18" "online" ] ;;
        console "Sample cameras created"
      else ret tt) ;;
     let* signals := find_all w Signal in
     (if (length signals =? 0)%nat then
        insertMany w Signal signal_ids
          [ demo_signal w "Junction 1" "Main St & 1st Ave" "online" "AI"
              "North-South Green" "35s" "Medium";
            demo_signal w "Junction 2" "Broadway & 5th St" "online" "AI"
              "East-West Green" "15s" "High";
            demo_signal w "Junction 3" "Park Ave & 3rd St" "online" "Manual"
              "All-Way Red" "5s" "Low";
            demo_signal w "Highway Entrance" "Highway 101 Entrance"
              "offline" "Scheduled" "Unknown" "-" "Unknown" ] ;;
        console "Sample signals created"
      else ret tt))
    (fun err => console "Error creating demo data:").

End Index.

(* ===================================================================== *)
(** ** The server as a transition system *)
(* ===================================================================== *)

(** Every entry point that writes device records or room membership. *)
Inductive event :=
(* routes/signals.js *)
| SignalsPost (newid : string) (body : value)
| SignalsPut (id : string) (body : value)
| SignalsDelete (id : string)
| SignalsPutSettings (id : string) (body : value)
| SignalsControl (id : string) (body : value)
(* routes/cameras.js *)
| CamerasPost (newid : string) (body : value)
| CamerasPut (id : string) (body : value)
| CamerasDelete (id : string)
| CamerasPutSettings (id : string) (body : value)
(* socketHandlers.js *)
| Authenticate (sid : nat) (token : value)
| CameraControl (sid : nat) (data : control_data)
| SignalControl (sid : nat) (data : control_data)
| DeviceConnect (sid : nat) (data : connect_data)
| DeviceData (sid : nat) (data : device_data)
(* index.js *)
| ApiCamerasPost (newid : string) (body : value)
| ApiCamerasPut (id : string) (body : value)
| ApiCamerasDelete (id : string)
| ApiSignalsPost (newid : string) (body : value)
| ApiSignalsPut (id : string) (body : value)
| ApiSignalsDelete (id : string)
| CameraTick (sid : nat) (pick flip which : Q)
| SignalTick (sid : nat) (pick phase time level : Q)
| CreateDemoData (camera_ids signal_ids : list string).


(** The state and the trace a handler run leaves behind. *)
Definition final {A} (run : result A * state * list action) : state :=
  snd (fst run).

Definition trace {A} (run : result A * state * list action) : list action :=
  snd run.

Definition outcome {A} (run : result A * state * list action) : result A :=
  fst (fst run).




(** *** Observations on a trace *)

(** The HTTP answers, with status and body. *)
Definition responses (out : list action) : list (Z * value) :=
  omap (fun a => match a with
                 | Respond st body => Some (st, body)
                 | _ => None
                 end) out.

(** The events published to a room, with their payload. *)
Definition emitted_to (room : string) (out : list action)
    : list (string * value) :=
  omap (fun a => match a with
                 | Emit (ToRoom r) ev payload =>
                     if String.eqb r room then Some (ev, payload) else None
                 | _ => None
                 end) out.

(** Every emission, whatever its target. *)
Definition emissions (out : list action) : list (target * string * value) :=
  omap (fun a => match a with
                 | Emit to ev payload => Some (to, ev, payload)
                 | _ => None
                 end) out.

(** *** Device status *)

Definition status_of (m : model) (id : string) (s : state) : value :=
  match coll m s !! id with
  | Some d => get_field "status" d
  | None => VUndef
  end.

Definition online : value := VStr "online".





(** No record is "online" after that was not "online" before. *)
Definition no_new_online (s s' : state) : Prop :=
  forall m id, status_of m id s' = online -> status_of m id s = online.

(** A computation that, from any state, turns no record "online". *)
Definition keeps {A} (c : M A) : Prop :=
  forall s, no_new_online s (final (c s)).

(** The value a [$set] list assigns to [k]: the last defined one. *)
Definition last_set (k : string) (upd : fields) : option value :=
  fold_left
    (fun acc kv => if String.eqb (fst kv) k && defined (snd kv)
                   then Some (snd kv) else acc)
    upd None.

(** Unfolding of the monad, for symbolic runs of a handler. *)
Ltac run :=
  unfold try_catch, bind, await, emit, respond, console, do, ret, throw,
    join, member.

(* ===================================================================== *)
(** ** Sample worlds, records and requests *)
(* ===================================================================== *)

Definition quiet : world :=
  {| now := 1710082800000; DEVICE_API_KEY := Some "s3cret";
     store_fault := false; jwt_verify := fun _ => false;
     to_string := fun _ => "" |}.

Definition faulty : world :=
  {| now := 1710082800000; DEVICE_API_KEY := Some "s3cret";
     store_fault := true; jwt_verify := fun _ => false;
     to_string := fun _ => "" |}.

Definition junction1 : fields :=
  [ ("name", VStr "Junction 1"); ("location", VStr "Main St & 1st Ave");
    ("status", VStr "offline"); ("mode", VStr "Scheduled");
    ("currentPhase", VStr "North-South Green"); ("remainingTime", VStr "0s") ].

Definition gate_camera : fields :=
  [ ("name", VStr "Gate"); ("location", VStr "Depot gate");
    ("status", VStr "offline");
    ("metrics", VObj [("vehicleCount", VNum 3)]) ].

Definition one_signal : state :=
  {| cameras := ∅; signals := {[ "sig1" := junction1 ]};
     analytics := []; rooms := ∅ |}.

Definition one_camera : state :=
  {| cameras := {[ "cam1" := gate_camera ]}; signals := ∅;
     analytics := []; rooms := ∅ |}.

Definition connect_cam1 (key : value) : connect_data :=
  {| con_type := "camera"; con_id := "cam1"; con_apiKey := key |}.

Definition push_cam1 : device_data :=
  {| dev_type := "camera"; dev_id := "cam1";
     dev_metrics := VObj [("vehicleCount", VNum 12);
                          ("congestionLevel", VStr "High");
                          ("averageSpeed", VNum 40)] |}.

Definition push_sig1 : device_data :=
  {| dev_type := "signal"; dev_id := "sig1";
     dev_metrics := VObj [("currentPhase", VStr "East-West Green");
                          ("remainingTime", VStr "12s")] |}.

(** A request body naming a phase that is the empty string. *)
Definition blank_phase : value := VObj [("currentPhase", VStr "")].

(** The request body of the "Junction 1" scenario. *)
Definition to_manual : value :=
  VObj [("mode", VStr "Manual"); ("currentPhase", VStr "All-Way Red")].

(** A signal push without a metrics payload. *)
Definition bare_push_sig1 : device_data :=
  {| dev_type := "signal"; dev_id := "sig1"; dev_metrics := VUndef |}.

Definition dim_cam1 : control_data :=
  {| ctl_id := "cam1";
     ctl_settings := VObj [("settings", VObj [("brightness", VNum 30)])] |}.

(** Three samples of 10 March 2024 between 14:00 and 15:00 UTC. *)
Definition reading (ms : Z) (volume : Q) (label : string) : fields :=
  [ ("timestamp", VDate ms); ("trafficVolume", VNum volume);
    ("congestionLevel", VStr label) ].

Definition two_pm_low : fields := reading 1710079200000 10 "Low".
Definition two_pm_high : fields := reading 1710081000000 31 "High".






Definition null_push_cam1 : device_data :=
  {| dev_type := "camera"; dev_id := "cam1"; dev_metrics := VNull |}.




(* ===================================================================== *)
(** ** The read routes of routes/signals.js and routes/cameras.js *)
(* ===================================================================== *)

Module Reads.

(** The documents of a collection as [find()] returns them. *)
Definition documents (found : list (string * fields)) : value :=
  VArr (map (fun kd => load (fst kd) (snd kd)) found).

(** router.get('/') of routes/signals.js *)
Definition signals_all (w : world) : M unit :=
  try_catch
    (let* signals := find_all w Signal in
     respond 200 (documents signals))
    (fun err =>
       console "Get signals error:" ;;
       respond 500 (message "Server error")).

(** router.get('/:id') of routes/signals.js *)
Definition signals_one (w : world) (id : string) : M unit :=
  try_catch
    (let* signal := findById w Signal id in
     if negb (truthy signal) then
       respond 404 (message "Signal not found")
     else respond 200 signal)
    (fun err =>
       console "Get signal error:" ;;
       respond 500 (message "Server error")).

(** router.get('/') of routes/cameras.js *)
Definition cameras_all (w : world) : M unit :=
  try_catch
    (let* cameras := find_all w Camera in
     respond 200 (documents cameras))
    (fun err =>
       console "Get cameras error:" ;;
       respond 500 (message "Server error")).

(** router.get('/:id') of routes/cameras.js *)
Definition cameras_one (w : world) (id : string) : M unit :=
  try_catch
    (let* camera := findById w Camera id in
     if negb (truthy camera) then
       respond 404 (message "Camera not found")
     else respond 200 camera)
    (fun err =>
       console "Get camera error:" ;;
       respond 500 (message "Server error")).

End Reads.



(** A body that renames a record and carries a field no route reads. *)
Definition rename_body : value :=
  VObj [("name", VStr "Junction 1A"); ("owner", VStr "city")].

Definition nameless : value := VObj [("location", VStr "Depot gate")].

(** Strict chronological order of group keys. *)
Definition earlier (a b : Dashboard.bucket_id) : Prop :=
  Dashboard.year a < Dashboard.year b \/
  (Dashboard.year a = Dashboard.year b /\
   (Dashboard.month a < Dashboard.month b \/
    (Dashboard.month a = Dashboard.month b /\
     (Dashboard.day a < Dashboard.day b \/
      (Dashboard.day a = Dashboard.day b /\
       Dashboard.hour a < Dashboard.hour b))))).

(** Every key of [bs] comes strictly after [k], or is [k]. *)
Definition bounded_below (k : Dashboard.bucket_id)
    (bs : list Dashboard.bucket) : Prop :=
  Forall (fun b => earlier k (Dashboard._id b) \/ k = Dashboard._id b) bs.

Inductive ascending : list Dashboard.bucket -> Prop :=
| ascending_nil : ascending []
| ascending_cons b bs :
    bounded_below (Dashboard._id b) bs -> ascending bs ->
    ascending (b :: bs).

(** The scores of the samples of a list. *)
Definition scores (g : list fields) : list Q :=
  map (fun d => Dashboard.congestion_score (get_field "congestionLevel" d)) g.

Definition late_low : fields := reading 1710082800000 5 "Low".
Definition stale_high : fields := reading 1709000000000 50 "High".
Definition two_pm_medium : fields := reading 1710080000000 20 "Medium".
(* ===================================================================== *)
(** ** index.js and routes/dashboard.js: the bearer-token middleware *)
(* ===================================================================== *)

Module Gate.

(** [s.split(' ')]: the pieces between single spaces, empty ones kept. *)
Fixpoint split_space (s : string) : list string :=
  match s with
  | EmptyString => [EmptyString]
  | String c rest =>
      if Ascii.eqb c " "%char then EmptyString :: split_space rest
      else match split_space rest with
           | [] => [String c EmptyString]
           | word :: words => String c word :: words
           end
  end.

(** [header.split(' ')[1]] *)
Definition second_word (header : string) : value :=
  match split_space header with
  | _ :: word :: _ => VStr word
  | _ => VUndef
  end.

(** What a middleware does with a request: it answers, or it calls
    [next()] with [req.user] set. *)
Inductive verdict :=
| Reject (status : Z) (body : value)
| Next (user : value).

(** [jwt.verify(token, secret)] on a token value: the decoded payload, or
    nothing when verification fails. *)
Definition verified (verify : string -> option value) (token : value)
    : option value :=
  match token with
  | VStr t => verify t
  | _ => None
  end.

(** authenticateToken of index.js *)
Definition authenticateToken (verify : string -> option value)
    (authorization : option string) : verdict :=
  let authHeader :=
    match authorization with
    | Some h => VStr h
    | None => VUndef
    end in
  let token :=
    if truthy authHeader then
      match authorization with
      | Some h => second_word h
      | None => VUndef
      end
    else authHeader in
  if negb (truthy token) then
    Reject 401 (message "Authentication required")
  else
    match verified verify token with
    | None => Reject 403 (message "Invalid or expired token")
    | Some user => Next user
    end.

(** [roles.includes(role)] *)
Definition includes (roles : list string) (role : value) : bool :=
  match role with
  | VStr r => existsb (String.eqb r) roles
  | _ => false
  end.

(** authorizeRole(roles) of index.js *)
Definition authorizeRole (roles : list string) (user : value) : verdict :=
  if negb (truthy user) then
    Reject 401 (message "Authentication required")
  else if negb (includes roles (prop user "role")) then
    Reject 403 (message "Insufficient permissions")
  else Next user.

(** verifyToken of routes/dashboard.js *)
Definition verifyToken (verify : string -> option value)
    (authorization : option string) : verdict :=
  let token :=
    match authorization with
    | Some h => second_word h
    | None => VUndef
    end in
  if negb (truthy token) then
    Reject 401 (message "Authentication token required")
  else
    match verified verify token with
    | None => Reject 401 (message "Invalid token")
    | Some decoded => Next decoded
    end.

(** A route of index.js behind authenticateToken and authorizeRole(roles). *)
Definition guarded (verify : string -> option value) (roles : list string)
    (authorization : option string) (handler : M unit) : M unit :=
  match authenticateToken verify authorization with
  | Reject status body => respond status body
  | Next user =>
      match authorizeRole roles user with
      | Reject status body => respond status body
      | Next _ => handler
      end
  end.

(** The six writing routes of index.js, with their role lists. *)
Definition cameras_post verify authorization (w : world) newid body :=
  guarded verify ["admin"; "operator"] authorization
    (Index.cameras_post w newid body).

Definition cameras_put verify authorization (w : world) id body :=
  guarded verify ["admin"; "operator"] authorization
    (Index.cameras_put w id body).

Definition cameras_delete verify authorization (w : world) id :=
  guarded verify ["admin"] authorization (Index.cameras_delete w id).

Definition signals_post verify authorization (w : world) newid body :=
  guarded verify ["admin"; "operator"] authorization
    (Index.signals_post w newid body).

Definition signals_put verify authorization (w : world) id body :=
  guarded verify ["admin"; "operator"] authorization
    (Index.signals_put w id body).

Definition signals_delete verify authorization (w : world) id :=
  guarded verify ["admin"] authorization (Index.signals_delete w id).

End Gate.

(** A verifier that knows two tokens. *)
Definition two_tokens (t : string) : option value :=
  if String.eqb t "op-token" then Some (VObj [("role", VStr "operator")])
  else if String.eqb t "adm-token" then Some (VObj [("role", VStr "admin")])
  else None.

(** A character string without a space. *)
Fixpoint spaceless (s : string) : bool :=
  match s with
  | EmptyString => true
  | String c rest => negb (Ascii.eqb c " "%char) && spaceless rest
  end.




(** A store with one camera and one signal that is offline. *)
Definition parked_signal : state :=
  {| cameras := {["cam1" := gate_camera]};
     signals := {["sig9" := [("name", VStr "Depot"); ("status", VStr "offline")]]};
     analytics := [];
     rooms := ∅ |}.



(** Ids for one run of the demo seed: eight cameras and four signals. *)
Definition seed_camera_ids : list string :=
  ["c1"; "c2"; "c3"; "c4"; "c5"; "c6"; "c7"; "c8"].

Definition seed_signal_ids : list string := ["s1"; "s2"; "s3"; "s4"].

(* ===================================================================== *)
(** ** index.js: the dashboard summary *)
(* ===================================================================== *)

Module ApiDashboard.

(** [congestionMap[level]]: a number for the four names. For any other key
    the lookup gives undefined or a member of Object.prototype, and the sum
    it is added to is no number from then on: [None]. *)
Definition congestionMap (level : value) : option Z :=
  match level with
  | VStr s =>
      if String.eqb s "Low" then Some 1
      else if String.eqb s "Medium" then Some 2
      else if String.eqb s "High" then Some 3
      else if String.eqb s "Unknown" then Some 0
      else None
  | _ => None
  end.

(** [level !== 'Unknown'] *)
Definition known (level : value) : bool :=
  match level with
  | VStr s => negb (String.eqb s "Unknown")
  | _ => true
  end.

(** [congestionSum += n] *)
Definition add (congestionSum n : option Z) : option Z :=
  match congestionSum, n with
  | Some a, Some b => Some (a + b)
  | _, _ => None
  end.

(** The [forEach] over the signals: the sum and the count. *)
Definition tally (signals : list fields) : option Z * nat :=
  fold_left
    (fun acc signal =>
       let level := get_field "congestionLevel" signal in
       if known level
       then (add (fst acc) (congestionMap level), S (snd acc))
       else acc)
    signals (Some 0, 0%nat).

Definition avgCongestion (signals : list fields) : option Q :=
  let (congestionSum, congestionCount) := tally signals in
  if (0 <? congestionCount)%nat then
    option_map
      (fun z => (inject_Z z / inject_Z (Z.of_nat congestionCount))%Q)
      congestionSum
  else Some 0%Q.

(** [x >= y] for [x] a number or NaN. *)
Definition at_least (x : option Q) (y : Q) : bool :=
  match x with
  | Some a => Qle_bool y a
  | None => false
  end.

Definition congestionLevel (signals : list fields) : string :=
  let avg := avgCongestion signals in
  if at_least avg (5 # 2) then "High"
  else if at_least avg (3 # 2) then "Moderate"
  else "Low".

(** [Model.countDocuments({ status: 'online' })] *)
Definition countDocuments (w : world) (m : model) : M nat :=
  await w (fun s =>
    (Ret (length
            (List.filter
               (fun kd => match get_field "status" (snd kd) with
                          | VStr st => String.eqb st "online"
                          | _ => false
                          end)
               (map_to_list (coll m s)))), s)).

Definition count (n : nat) : value := VNum (inject_Z (Z.of_nat n)).

(** app.get('/api/dashboard'); [recentEvents] is the fixed list of events
    with the times as the runtime's locale prints them. *)
Definition dashboard (w : world) (recentEvents : value) : M unit :=
  try_catch
    (let* activeCameras := countDocuments w Camera in
     let* activeSignals := countDocuments w Signal in
     let* signals := find_all w Signal in
     let congestionLevel := congestionLevel (map snd signals) in
     respond 200
       (VObj [("activeCameras", count activeCameras);
              ("activeSignals", count activeSignals);
              ("congestionLevel", VStr congestionLevel);
              ("recentEvents", recentEvents)]))
    (fun err =>
       console "Error fetching dashboard data:" ;;
       respond 500 (message "Server error")).

End ApiDashboard.

(** How many of the signals carry the level [name]. *)
Definition with_level (name : string) (signals : list fields) : nat :=
  length
    (List.filter
       (fun d => match get_field "congestionLevel" d with
                 | VStr s => String.eqb s name
                 | _ => false
                 end) signals).

(** The level is one of the four names of the schema. *)
Definition named_level (d : fields) : Prop :=
  In (get_field "congestionLevel" d)
     [VStr "Low"; VStr "Medium"; VStr "High"; VStr "Unknown"].

Definition leveled (level : string) : fields :=
  [("name", VStr "J"); ("congestionLevel", VStr level)].

(** One step of the dashboard's [forEach]. *)
Definition tally_step (acc : option Z * nat) (signal : fields)
    : option Z * nat :=
  let level := get_field "congestionLevel" signal in
  if ApiDashboard.known level
  then (ApiDashboard.add (fst acc) (ApiDashboard.congestionMap level),
        S (snd acc))
  else acc.

(** A store of three signals: two High and one whose level is no name of
    the schema. *)
Definition mixed_levels : list fields :=
  [leveled "High"; leveled "Severe"; leveled "High"].

Definition plain_events : value := VArr [].

(** A store of four signals: three High and one Low. *)
Definition busy_signals : state :=
  {| cameras := ∅;
     signals := {[ "a" := leveled "High"; "b" := leveled "High";
                   "c" := leveled "High"; "d" := leveled "Low" ]};
     analytics := []; rooms := ∅ |}.

(** The six writes of index.js's REST interface, for one id and body. *)
Definition api_writes (w : world) (id : string) (body : value)
    : list (M unit) :=
  [ Index.cameras_post w id body; Index.cameras_put w id body;
    Index.cameras_delete w id;
    Index.signals_post w id body; Index.signals_put w id body;
    Index.signals_delete w id ].

(** The run answered once with [status] and announced as [announced]. *)
Definition answered (r : result unit * state * list action) (status : Z)
    : Prop :=
  exists payload, responses (trace r) = [(status, payload)].

(* ===================================================================== *)
(** ** Field lists *)
(* ===================================================================== *)

Lemma get_field_set_field_eq k v fs :
  get_field k (set_field k v fs) = v.
Proof.
  induction fs as [|[k' v'] fs IH]; cbn.
  - now rewrite String.eqb_refl.
  - destruct (String.eqb k k') eqn:E; cbn.
    + now rewrite String.eqb_refl.
    + now rewrite E.
Qed.

Lemma get_field_set_field_ne k k' v fs :
  String.eqb k' k = false ->
  get_field k (set_field k' v fs) = get_field k fs.
Proof.
  intros Hne.
  assert (Hne' : String.eqb k k' = false) by now rewrite String.eqb_sym.
  induction fs as [|[k0 v0] fs IH]; cbn.
  - now rewrite Hne'.
  - destruct (String.eqb k' k0) eqn:E; cbn.
    + apply String.eqb_eq in E. subst k0. now rewrite Hne'.
    + destruct (String.eqb k k0); [reflexivity | exact IH].
Qed.


Lemma last_set_from_some k upd : forall v,
  exists v',
    fold_left
      (fun acc kv => if String.eqb (fst kv) k && defined (snd kv)
                     then Some (snd kv) else acc) upd (Some v) = Some v'.
Proof.
  induction upd as [|[k' v'] upd IH]; intros v; cbn.
  - now exists v.
  - destruct (String.eqb k' k && defined v'); apply IH.
Qed.

Lemma get_field_apply_set_from k upd : forall d acc,
  (forall v, acc = Some v -> get_field k d = v) ->
  get_field k
    (fold_left
       (fun acc kv => if defined (snd kv) then set_field (fst kv) (snd kv) acc
                      else acc) upd d)
  = match fold_left
            (fun acc kv => if String.eqb (fst kv) k && defined (snd kv)
                           then Some (snd kv) else acc) upd acc with
    | Some v => v
    | None => get_field k d
    end.
Proof.
  induction upd as [|[k' v'] upd IH]; intros d acc Hacc; cbn.
  - destruct acc as [v|]; [now apply Hacc | reflexivity].
  - destruct (defined v') eqn:Hv; rewrite ?andb_true_r, ?andb_false_r.
    + destruct (String.eqb k' k) eqn:Hk.
      * apply String.eqb_eq in Hk. subst k'.
        rewrite (IH (set_field k v' d) (Some v')).
        -- destruct (last_set_from_some k upd v') as [v1 ->]. reflexivity.
        -- intros v [= <-]. apply get_field_set_field_eq.
      * rewrite (IH (set_field k' v' d) acc).
        -- destruct (fold_left _ upd acc); [reflexivity|].
           now apply get_field_set_field_ne.
        -- intros v Hv'. rewrite get_field_set_field_ne by assumption.
           now apply Hacc.
    + now apply IH.
Qed.

(** What a document reads at [k] after a [$set]. *)
Lemma get_field_apply_set k upd d :
  get_field k (apply_set upd d)
  = match last_set k upd with
    | Some v => v
    | None => get_field k d
    end.
Proof.
  unfold apply_set, last_set. apply get_field_apply_set_from. discriminate.
Qed.


(* ===================================================================== *)
(** ** Runs of the store operations *)
(* ===================================================================== *)

Lemma run_findByIdAndUpdate_fault w m id upd s :
  store_fault w = true ->
  findByIdAndUpdate w m id upd s = (Throw "StoreError", s, []).
Proof. intros Hw. unfold findByIdAndUpdate, await. now rewrite Hw. Qed.

Lemma run_findByIdAndUpdate_none w m id upd s :
  store_fault w = false -> coll m s !! id = None ->
  findByIdAndUpdate w m id upd s = (Ret VNull, s, []).
Proof. intros Hw Hd. unfold findByIdAndUpdate, await. now rewrite Hw, Hd. Qed.

Lemma run_findByIdAndUpdate_some w m id upd s d :
  store_fault w = false -> coll m s !! id = Some d ->
  moves_id id upd = false ->
  findByIdAndUpdate w m id upd s
  = (Ret (load id (apply_set (without_id upd) d)),
     set_coll m (<[id := apply_set (without_id upd) d]> (coll m s)) s, []).
Proof.
  intros Hw Hd Hm. unfold findByIdAndUpdate, await. now rewrite Hw, Hd, Hm.
Qed.

Lemma run_findByIdAndDelete_fault w m id s :
  store_fault w = true ->
  findByIdAndDelete w m id s = (Throw "StoreError", s, []).
Proof. intros Hw. unfold findByIdAndDelete, await. now rewrite Hw. Qed.

Lemma run_findByIdAndDelete_none w m id s :
  store_fault w = false -> coll m s !! id = None ->
  findByIdAndDelete w m id s = (Ret VNull, s, []).
Proof. intros Hw Hd. unfold findByIdAndDelete, await. now rewrite Hw, Hd. Qed.


(* ===================================================================== *)
(** ** REST updates: acknowledgement and broadcast *)
(* ===================================================================== *)

(** C1. A PUT /signals/:id or PUT /cameras/:id that finds its record answers
    200 with the record as stored after the update, and publishes exactly
    that record once to the "admin" room, as signalUpdate or cameraUpdate. *)
Theorem update_ack_is_admin_broadcast (w : world) (id : string) (body : value)
    (s : state) (d : fields) :
  store_fault w = false ->
  (signals s !! id = Some d ->
   let r := SignalRoutes.put w id body s in
   exists rec,
     responses (trace r) = [(200, rec)] /\
     emitted_to "admin" (trace r) = [("signalUpdate", rec)] /\
     exists d', signals (final r) !! id = Some d' /\ rec = load id d') /\
  (cameras s !! id = Some d ->
   let r := CameraRoutes.put w id body s in
   exists rec,
     responses (trace r) = [(200, rec)] /\
     emitted_to "admin" (trace r) = [("cameraUpdate", rec)] /\
     exists d', cameras (final r) !! id = Some d' /\ rec = load id d').
Proof.
  intros Hw. split; intros Hd r; subst r.
  - unfold SignalRoutes.put. run.
    rewrite (run_findByIdAndUpdate_some w Signal id _ s d Hw Hd) by reflexivity.
    cbn. eexists. 
    destruct (truthy (js_or _ _)); cbn;
      (split; [reflexivity | split; [reflexivity |]]);
      eexists; (split; [apply lookup_insert_eq | reflexivity]).
  - unfold CameraRoutes.put. run.
    rewrite (run_findByIdAndUpdate_some w Camera id _ s d Hw Hd) by reflexivity.
    cbn. eexists. split; [reflexivity | split; [reflexivity |]].
    eexists. split; [apply lookup_insert_eq | reflexivity].
Qed.

Lemma update_ack_is_admin_broadcast_witness :
  store_fault quiet = false /\
  signals one_signal !! "sig1" = Some junction1 /\
  cameras one_camera !! "cam1" = Some gate_camera /\
  (exists rec,
     responses (trace (SignalRoutes.put quiet "sig1"
                         (VObj [("status", VStr "online")]) one_signal))
     = [(200, rec)] /\
     emitted_to "admin" (trace (SignalRoutes.put quiet "sig1"
                         (VObj [("status", VStr "online")]) one_signal))
     = [("signalUpdate", rec)]) /\
  (exists rec,
     responses (trace (CameraRoutes.put quiet "cam1"
                         (VObj [("name", VStr "Gate 2")]) one_camera))
     = [(200, rec)] /\
     emitted_to "admin" (trace (CameraRoutes.put quiet "cam1"
                         (VObj [("name", VStr "Gate 2")]) one_camera))
     = [("cameraUpdate", rec)]).
Proof.
  do 3 (split; [reflexivity |]).
  destruct (update_ack_is_admin_broadcast quiet "sig1"
              (VObj [("status", VStr "online")]) one_signal junction1
              eq_refl) as [Hs _].
  destruct (update_ack_is_admin_broadcast quiet "cam1"
              (VObj [("name", VStr "Gate 2")]) one_camera gate_camera
              eq_refl) as [_ Hc].
  destruct (Hs eq_refl) as (rec & Hr & He & _).
  destruct (Hc eq_refl) as (rec' & Hr' & He' & _).
  split; [exists rec | exists rec']; split; assumption.
Defined.

(* ===================================================================== *)
(** ** Deleting a record that is not there *)
(* ===================================================================== *)

Lemma delete_absent_run (w : world) (m : model) (id : string) (s : state) :
  coll m s !! id = None ->
  findByIdAndDelete w m id s
  = if store_fault w then (Throw "StoreError", s, [])
    else (Ret VNull, s, []).
Proof.
  intros Hd. destruct (store_fault w) eqn:Hw.
  - now apply run_findByIdAndDelete_fault.
  - now apply run_findByIdAndDelete_none.
Qed.

(** C8. A DELETE whose id is not in the store leaves the store as it was
    and publishes nothing, on the routers and on the monolithic server
    alike; when the store answers the lookup, the reply is 404 with the
    "not found" message. *)
Theorem delete_absent_is_not_found (w : world) (id : string) (s : state) :
  (signals s !! id = None ->
   let r := SignalRoutes.delete w id s in
   let r' := Index.signals_delete w id s in
   final r = s /\ emissions (trace r) = [] /\
   final r' = s /\ emissions (trace r') = [] /\
   (store_fault w = false ->
    responses (trace r) = [(404, message "Signal not found")] /\
    responses (trace r') = [(404, message "Signal not found")])) /\
  (cameras s !! id = None ->
   let r := CameraRoutes.delete w id s in
   let r' := Index.cameras_delete w id s in
   final r = s /\ emissions (trace r) = [] /\
   final r' = s /\ emissions (trace r') = [] /\
   (store_fault w = false ->
    responses (trace r) = [(404, message "Camera not found")] /\
    responses (trace r') = [(404, message "Camera not found")])).
Proof.
  split; intros Hd r r'; subst r r';
    unfold SignalRoutes.delete, Index.signals_delete,
      CameraRoutes.delete, Index.cameras_delete; run.
  - rewrite (delete_absent_run w Signal id s Hd).
    destruct (store_fault w); cbn; repeat split; congruence.
  - rewrite (delete_absent_run w Camera id s Hd).
    destruct (store_fault w); cbn; repeat split; congruence.
Qed.

Lemma delete_absent_is_not_found_witness :
  signals one_camera !! "sig9" = None /\
  cameras one_camera !! "cam9" = None /\
  store_fault quiet = false /\
  final (SignalRoutes.delete quiet "sig9" one_camera) = one_camera /\
  responses (trace (SignalRoutes.delete quiet "sig9" one_camera))
  = [(404, message "Signal not found")] /\
  emissions (trace (CameraRoutes.delete quiet "cam9" one_camera)) = [] /\
  responses (trace (CameraRoutes.delete quiet "cam9" one_camera))
  = [(404, message "Camera not found")].
Proof.
  destruct (delete_absent_is_not_found quiet "sig9" one_camera) as [Hs _].
  destruct (delete_absent_is_not_found quiet "cam9" one_camera) as [_ Hc].
  destruct (Hs eq_refl) as (H1 & _ & _ & _ & H2).
  destruct (Hc eq_refl) as (_ & H3 & _ & _ & H4).
  destruct (H2 eq_refl) as [H5 _]. destruct (H4 eq_refl) as [H6 _].
  repeat split; assumption || reflexivity.
Defined.

(* ===================================================================== *)
(** ** Device connection *)
(* ===================================================================== *)

(** C2. A deviceConnect whose apiKey differs from DEVICE_API_KEY leaves the
    whole server state as it was: no room is joined, no record is written
    (so no status becomes "online"); the only emission is the error sent
    back to the connecting socket. *)
Theorem connect_wrong_secret_changes_nothing (w : world) (sid : nat)
    (data : connect_data) (s : state) :
  strict_neq_env (con_apiKey data) (DEVICE_API_KEY w) = true ->
  let r := Sockets.deviceConnect w sid data s in
  final r = s /\
  rooms (final r) = rooms s /\
  cameras (final r) = cameras s /\
  signals (final r) = signals s /\
  emissions (trace r)
  = [(ToSocket sid, "error", message "Authentication failed")].
Proof.
  intros Hkey r. subst r. unfold Sockets.deviceConnect. run.
  rewrite Hkey. cbn. repeat split; reflexivity.
Qed.

Lemma connect_wrong_secret_changes_nothing_witness :
  strict_neq_env (VStr "guess") (DEVICE_API_KEY quiet) = true /\
  final (Sockets.deviceConnect quiet 4
           {| con_type := "camera"; con_id := "cam1";
              con_apiKey := VStr "guess" |} one_camera)
  = one_camera.
Proof.
  split; [reflexivity |].
  apply (connect_wrong_secret_changes_nothing quiet 4
           {| con_type := "camera"; con_id := "cam1";
              con_apiKey := VStr "guess" |} one_camera eq_refl).
Defined.

(* ===================================================================== *)
(** ** REST updates of a signal: the device-scoped configUpdate *)
(* ===================================================================== *)

Lemma truthy_js_or a b : truthy (js_or a b) = truthy a || truthy b.
Proof. unfold js_or. destruct (truthy a) eqn:E; [exact E | reflexivity]. Qed.

(** C9, as the code has it. A PUT /signals/:id that finds its record
    publishes, besides the admin broadcast, one configUpdate to the room
    "signal-<id>" exactly when [mode] or [currentPhase] of the body is
    truthy; its payload is the object with the three fields mode,
    currentPhase and remainingTime of the body. With the body
    {mode: "Manual", currentPhase: "All-Way Red"} the stored record has
    mode Manual and phase All-Way Red, whatever its mode was. *)
Theorem config_update_on_truthy_control_field (w : world) (id : string)
    (body : value) (s : state) (d : fields) :
  store_fault w = false ->
  signals s !! id = Some d ->
  let r := SignalRoutes.put w id body s in
  let config :=
    VObj [("mode", prop body "mode");
          ("currentPhase", prop body "currentPhase");
          ("remainingTime", prop body "remainingTime")] in
  (exists rec, emitted_to "admin" (trace r) = [("signalUpdate", rec)]) /\
  (truthy (prop body "mode") || truthy (prop body "currentPhase") = true ->
   emitted_to ("signal-" +:+ id) (trace r) = [("configUpdate", config)]) /\
  (truthy (prop body "mode") || truthy (prop body "currentPhase") = false ->
   emitted_to ("signal-" +:+ id) (trace r) = []) /\
  (body = to_manual ->
   exists d',
     signals (final r) !! id = Some d' /\
     get_field "mode" d' = VStr "Manual" /\
     get_field "currentPhase" d' = VStr "All-Way Red" /\
     emitted_to ("signal-" +:+ id) (trace r)
     = [("configUpdate",
         VObj [("mode", VStr "Manual"); ("currentPhase", VStr "All-Way Red");
               ("remainingTime", VUndef)])]).
Proof.
  intros Hw Hd r config. subst r config.
  unfold SignalRoutes.put. run.
  rewrite (run_findByIdAndUpdate_some w Signal id _ s d Hw Hd) by reflexivity.
  rewrite truthy_js_or.
  split; [| split; [| split]].
  - destruct (truthy (prop body "mode") || truthy (prop body "currentPhase"));
      cbn; eexists; reflexivity.
  - intros ->. cbn. now rewrite String.eqb_refl.
  - intros ->. reflexivity.
  - intros ->. cbn. rewrite String.eqb_refl. eexists.
    split; [apply lookup_insert_eq |].
    rewrite !get_field_apply_set. repeat split; reflexivity.
Qed.

Lemma config_update_on_truthy_control_field_witness :
  store_fault quiet = false /\
  signals one_signal !! "sig1" = Some junction1 /\
  get_field "mode" junction1 = VStr "Scheduled" /\
  truthy (prop to_manual "mode") || truthy (prop to_manual "currentPhase")
  = true /\
  truthy (prop blank_phase "mode") || truthy (prop blank_phase "currentPhase")
  = false /\
  emitted_to ("signal-" +:+ "sig1")
    (trace (SignalRoutes.put quiet "sig1" blank_phase one_signal)) = [] /\
  exists d',
    signals (final (SignalRoutes.put quiet "sig1" to_manual one_signal))
      !! "sig1" = Some d' /\
    get_field "mode" d' = VStr "Manual" /\
    get_field "currentPhase" d' = VStr "All-Way Red" /\
    emitted_to ("signal-" +:+ "sig1")
      (trace (SignalRoutes.put quiet "sig1" to_manual one_signal))
    = [("configUpdate",
        VObj [("mode", VStr "Manual"); ("currentPhase", VStr "All-Way Red");
              ("remainingTime", VUndef)])].
Proof.
  do 5 (split; [reflexivity |]).
  destruct (config_update_on_truthy_control_field quiet "sig1" to_manual
              one_signal junction1 eq_refl eq_refl) as (_ & _ & _ & H).
  destruct (config_update_on_truthy_control_field quiet "sig1" blank_phase
              one_signal junction1 eq_refl eq_refl) as (_ & _ & H' & _).
  split; [exact (H' eq_refl) | exact (H eq_refl)].
Defined.

(** C9 as stated fails: a PUT whose body includes currentPhase, as the empty
    string, finds its record, stores the phase and answers 200, yet nothing
    is published to "signal-sig1". *)
Lemma config_update_blank_phase_counterexample :
  store_fault quiet = false /\
  signals one_signal !! "sig1" = Some junction1 /\
  prop blank_phase "currentPhase" = VStr "" /\
  (exists d',
     signals (final (SignalRoutes.put quiet "sig1" blank_phase one_signal))
       !! "sig1" = Some d' /\
     get_field "currentPhase" d' = VStr "") /\
  (exists rec,
     responses (trace (SignalRoutes.put quiet "sig1" blank_phase one_signal))
     = [(200, rec)]) /\
  emitted_to "signal-sig1"
    (trace (SignalRoutes.put quiet "sig1" blank_phase one_signal)) = [].
Proof.
  repeat split; try reflexivity.
  - eexists. split; vm_compute; reflexivity.
  - eexists. vm_compute. reflexivity.
Qed.

(* ===================================================================== *)
(** ** Device telemetry *)
(* ===================================================================== *)

(** What processTrafficAnalytics publishes: nothing, or one analyticsUpdate
    to "admin"; it never throws and never touches the device collections
    or the rooms. *)
Lemma processTrafficAnalytics_run (w : world) (metrics : value) (s : state) :
  let r := Sockets.processTrafficAnalytics w metrics s in
  outcome r = Ret tt /\
  cameras (final r) = cameras s /\
  signals (final r) = signals s /\
  rooms (final r) = rooms s /\
  responses (trace r) = [] /\
  (emissions (trace r) = [] \/
   exists rollup,
     emissions (trace r) = [(ToRoom "admin", "analyticsUpdate", rollup)]).
Proof.
  intros r. subst r. unfold Sockets.processTrafficAnalytics. run.
  destruct (nullish metrics); cbn; [repeat split; auto |].
  destruct (store_fault w); cbn; [repeat split; auto |].
  destruct (Sockets.aggregate_day _ _) as [|first rest]; cbn;
    repeat split; eauto.
Qed.



(** C10. A deviceData push whose id matches no record is not reported as
    missing: when the store answers, the lookup's null result is published
    to "admin" as cameraUpdate (type "camera") or signalUpdate (type
    "signal", the payload carrying metrics); nothing goes back to the
    sender and no "error" event is emitted. *)
Theorem telemetry_for_unknown_device (w : world) (sid : nat)
    (data : device_data) (s : state) :
  store_fault w = false ->
  let r := Sockets.deviceData w sid data s in
  (dev_type data = "camera" -> cameras s !! dev_id data = None ->
   head (emissions (trace r)) = Some (ToRoom "admin", "cameraUpdate", VNull) /\
   (forall to ev payload,
      In (to, ev, payload) (emissions (trace r)) ->
      to = ToRoom "admin" /\ ev <> "error") /\
   responses (trace r) = []) /\
  (dev_type data = "signal" -> signals s !! dev_id data = None ->
   nullish (dev_metrics data) = false ->
   emissions (trace r) = [(ToRoom "admin", "signalUpdate", VNull)] /\
   responses (trace r) = []).
Proof.
  intros Hw r. subst r. destruct data as [type id metrics]. cbn.
  split; intros -> Hd; unfold Sockets.deviceData; cbn; run.
  - rewrite (run_findByIdAndUpdate_none w Camera id _ s Hw Hd).
    pose proof (processTrafficAnalytics_run w metrics s) as Hp.
    cbv zeta in Hp. unfold final, trace, outcome in *.
    destruct (Sockets.processTrafficAnalytics _ _ _) as [[res s'] out'].
    cbn in *. destruct Hp as (-> & _ & _ & _ & Hr & He). cbn.
    split; [reflexivity |]. split; [| exact Hr].
    intros to ev payload [[= <- <- <-] | Hin]; [split; [reflexivity | discriminate] |].
    destruct He as [He | [rollup He]]; rewrite He in Hin.
    + destruct Hin.
    + destruct Hin as [[= <- <- <-] | []]. split; [reflexivity | discriminate].
  - intros Hm. rewrite Hm. cbn.
    rewrite (run_findByIdAndUpdate_none w Signal id _ s Hw Hd).
    cbn. split; reflexivity.
Qed.

Lemma telemetry_for_unknown_device_witness :
  store_fault quiet = false /\
  signals one_camera !! dev_id push_sig1 = None /\
  cameras one_signal !! dev_id push_cam1 = None /\
  nullish (dev_metrics push_sig1) = false /\
  emissions (trace (Sockets.deviceData quiet 2 push_sig1 one_camera))
  = [(ToRoom "admin", "signalUpdate", VNull)] /\
  head (emissions (trace (Sockets.deviceData quiet 2 push_cam1 one_signal)))
  = Some (ToRoom "admin", "cameraUpdate", VNull).
Proof.
  do 4 (split; [reflexivity |]).
  destruct (telemetry_for_unknown_device quiet 2 push_sig1 one_camera eq_refl)
    as [_ Hs].
  destruct (telemetry_for_unknown_device quiet 2 push_cam1 one_signal eq_refl)
    as [Hc _].
  split; [exact (proj1 (Hs eq_refl eq_refl eq_refl)) |].
  exact (proj1 (Hc eq_refl eq_refl)).
Defined.

(* ===================================================================== *)
(** ** Failures of socket-originated mutations *)
(* ===================================================================== *)

(** When the store rejects, the control and connect handlers report to the
    sender and to nobody else, and leave the collections as they were. *)
Lemma control_failure_reported (w : world) (sid : nat) (data : control_data)
    (s : state) :
  store_fault w = true ->
  emissions (trace (Sockets.cameraControl w sid data s))
  = [(ToSocket sid, "error", message "Failed to control camera")] /\
  emissions (trace (Sockets.signalControl w sid data s))
  = [(ToSocket sid, "error", message "Failed to control signal")] /\
  final (Sockets.cameraControl w sid data s) = s /\
  final (Sockets.signalControl w sid data s) = s.
Proof.
  intros Hw. unfold Sockets.cameraControl, Sockets.signalControl. run.
  rewrite !run_findByIdAndUpdate_fault by assumption.
  cbn. repeat split; reflexivity.
Qed.

Lemma connect_failure_reported (w : world) (sid : nat) (data : connect_data)
    (s : state) :
  outcome (Sockets.deviceConnect w sid data s) = Ret tt /\
  (store_fault w = true ->
   con_type data = "camera" \/ con_type data = "signal" ->
   emissions (trace (Sockets.deviceConnect w sid data s))
   = [(ToSocket sid, "error", message "Authentication failed")]).
Proof.
  destruct data as [type id key]. unfold Sockets.deviceConnect. cbn. run.
  split.
  - destruct (strict_neq_env key (DEVICE_API_KEY w)); cbn; [reflexivity |].
    destruct (String.eqb type "camera"); cbn.
    + unfold findByIdAndUpdate, await.
      destruct (store_fault w); cbn; [reflexivity |].
      destruct (_ !! id); cbn; reflexivity.
    + destruct (String.eqb type "signal"); cbn; [| reflexivity].
      unfold findByIdAndUpdate, await.
      destruct (store_fault w); cbn; [reflexivity |].
      destruct (_ !! id); cbn; reflexivity.
  - intros Hw Htype.
    destruct (strict_neq_env key (DEVICE_API_KEY w)); cbn; [reflexivity |].
    destruct Htype as [-> | ->]; cbn;
      rewrite run_findByIdAndUpdate_fault by assumption; reflexivity.
Qed.

(** The deviceData handler swallows its failures: when the store rejects,
    or when a signal push has no metrics to read the phase from, the run
    ends normally with nothing emitted and nothing written. *)
Lemma deviceData_failure_silent (w : world) (sid : nat) (data : device_data)
    (s : state) :
  store_fault w = true \/
  (dev_type data = "signal" /\ nullish (dev_metrics data) = true) ->
  trace (Sockets.deviceData w sid data s) = [Log "Device data update error:"]
  \/ trace (Sockets.deviceData w sid data s) = [].
Proof.
  destruct data as [type id metrics]. cbn.
  unfold Sockets.deviceData. cbn. run.
  intros [Hw | [-> Hm]].
  - destruct (String.eqb type "camera"); cbn.
    + rewrite run_findByIdAndUpdate_fault by assumption. now left.
    + destruct (String.eqb type "signal"); cbn; [| now right].
      destruct (nullish metrics); cbn; [now left |].
      rewrite run_findByIdAndUpdate_fault by assumption. now left.
  - cbn. rewrite Hm. now left.
Qed.

(** C6, at the failing inputs. A signal push without metrics, and any push
    while the store rejects, fail inside deviceData; the handler only logs:
    no "error" event reaches the sender. The sibling handlers, run against
    the same rejecting store, do send the sender an "error" event. *)
Theorem deviceData_failure_sends_no_error :
  trace (Sockets.deviceData quiet 2 bare_push_sig1 one_signal)
  = [Log "Device data update error:"] /\
  emissions (trace (Sockets.deviceData quiet 2 bare_push_sig1 one_signal))
  = [] /\
  emissions (trace (Sockets.deviceData faulty 2 push_cam1 one_camera)) = [] /\
  emissions (trace (Sockets.cameraControl faulty 2 dim_cam1 one_camera))
  = [(ToSocket 2, "error", message "Failed to control camera")] /\
  emissions (trace (Sockets.signalControl faulty 2 dim_cam1 one_camera))
  = [(ToSocket 2, "error", message "Failed to control signal")] /\
  emissions (trace (Sockets.deviceConnect faulty 2 (connect_cam1 (VStr "s3cret"))
                      one_camera))
  = [(ToSocket 2, "error", message "Authentication failed")].
Proof. repeat split; vm_compute; reflexivity. Qed.

(* ===================================================================== *)
(** ** The Analytics Aggregator *)
(* ===================================================================== *)










(* ===================================================================== *)
(** ** The hourly trend *)
(* ===================================================================== *)

Module TrendFacts.
Import Dashboard.

Lemma same_bucket_eq (a b : bucket_id) :
  same_bucket a b = true <-> a = b.
Proof.
  unfold same_bucket. destruct a, b; cbn. split.
  - intros H. repeat (apply andb_prop in H; destruct H as [H ?]).
    f_equal; now apply Z.eqb_eq.
  - intros [= -> -> -> ->]. now rewrite !Z.eqb_refl.
Qed.

Lemma same_bucket_refl (a : bucket_id) : same_bucket a a = true.
Proof. now apply same_bucket_eq. Qed.

Lemma distinct_In (k : bucket_id) (ks : list bucket_id) :
  In k (distinct ks) <-> In k ks.
Proof.
  induction ks as [|k0 ks IH]; cbn; [reflexivity |].
  rewrite List.filter_In, IH. split.
  - intros [-> | [H _]]; auto.
  - intros [-> | H]; [now left |].
    destruct (same_bucket k k0) eqn:E.
    + left. symmetry. now apply same_bucket_eq.
    + right. split; [exact H | reflexivity].
Qed.

Lemma distinct_NoDup (ks : list bucket_id) : List.NoDup (distinct ks).
Proof.
  induction ks as [|k0 ks IH]; cbn; constructor.
  - rewrite List.filter_In. cbv beta. rewrite same_bucket_refl.
    now intros [_ ?].
  - now apply List.NoDup_filter.
Qed.

Lemma insert_sorted_In (x b : bucket) (bs : list bucket) :
  In x (insert_sorted b bs) <-> x = b \/ In x bs.
Proof.
  induction bs as [|b' bs IH]; cbn; [intuition congruence |].
  destruct (before (_id b) (_id b')); cbn; [intuition congruence |].
  rewrite IH. intuition congruence.
Qed.

Lemma sort_In (x : bucket) (bs : list bucket) :
  In x (sort bs) <-> In x bs.
Proof.
  unfold sort. induction bs as [|b bs IH]; cbn; [reflexivity |].
  rewrite insert_sorted_In, IH. intuition congruence.
Qed.

Lemma members_In (k : bucket_id) (window : list fields) (d : fields) :
  In d (members k window) <-> In d window /\ bucket_of (stamp d) = k.
Proof.
  unfold members. rewrite List.filter_In. now rewrite same_bucket_eq.
Qed.

(** Each group of the pipeline: its key occurs in the window, and its two
    averages are taken over the window's samples with that key. *)
Lemma hourlyTraffic_bucket (w : world) (docs : list fields) (b : bucket) :
  In b (hourlyTraffic w docs) ->
  let window := List.filter (since (now w - day_ms)) docs in
  let g := members (_id b) window in
  g <> [] /\
  averageCongestion b
  = mean (map (fun d => congestion_score (get_field "congestionLevel" d)) g)
  /\
  averageTrafficVolume b = avg (map (get_field "trafficVolume") g).
Proof.
  intros Hb window g. subst window g.
  unfold hourlyTraffic in Hb. rewrite sort_In in Hb. unfold group in Hb.
  rewrite List.in_map_iff in Hb. destruct Hb as (k & <- & Hk).
  cbn. split; [| split; reflexivity].
  rewrite distinct_In, List.in_map_iff in Hk. destruct Hk as (d & <- & Hd).
  intros Hnil.
  assert (Hin : In d (members (bucket_of (stamp d))
                        (List.filter (since (now w - day_ms)) docs)))
    by now apply members_In.
  rewrite Hnil in Hin. exact Hin.
Qed.


Lemma trend_label_low (a : Q) : (a < 3 # 2)%Q -> trend_label a = "Low".
Proof.
  intros H. unfold trend_label, Qltb.
  destruct (Qle_bool (3 # 2) a) eqn:E; [| reflexivity].
  apply Qle_bool_iff in E. exfalso. exact (Qlt_not_le _ _ H E).
Qed.



End TrendFacts.

Lemma insert_sorted_Permutation (b : Dashboard.bucket)
    (bs : list Dashboard.bucket) :
  Permutation (Dashboard.insert_sorted b bs) (b :: bs).
Proof.
  induction bs as [|b' bs IH]; cbn; [reflexivity |].
  destruct (Dashboard.before _ _); [reflexivity |].
  rewrite IH. apply perm_swap.
Qed.

Lemma sort_Permutation (bs : list Dashboard.bucket) :
  Permutation (Dashboard.sort bs) bs.
Proof.
  unfold Dashboard.sort. induction bs as [|b bs IH]; cbn; [reflexivity |].
  rewrite insert_sorted_Permutation. now constructor.
Qed.

(** One group per (year, month, day, hour). *)
Lemma hourlyTraffic_keys_NoDup (w : world) (docs : list fields) :
  List.NoDup (map Dashboard._id (Dashboard.hourlyTraffic w docs)).
Proof.
  unfold Dashboard.hourlyTraffic.
  eapply Permutation_NoDup.
  - symmetry. apply Permutation_map, sort_Permutation.
  - unfold Dashboard.group. rewrite List.map_map. cbn. rewrite List.map_id.
    apply TrendFacts.distinct_NoDup.
Qed.





(** The schema of models/Analytics.js names the middle level "Medium"; the
    pipeline tests for "Moderate", so a Medium sample scores 1, like Low. *)
Remark medium_scores_as_low :
  Dashboard.congestion_score (VStr "Medium")
  = Dashboard.congestion_score (VStr "Low").
Proof. reflexivity. Qed.

(* ===================================================================== *)
(** ** Which entry points turn a record "online" *)
(* ===================================================================== *)

Lemma no_new_online_refl (s : state) : no_new_online s s.
Proof. now intros m id. Qed.






Section Keeps.
Context {A B : Type}.




(** A read of the store. *)
Lemma keeps_read (w : world) (f : state -> result A) :
  keeps (await w (fun s => (f s, s))).
Proof.
  intros s. unfold await, final. destruct (store_fault w); cbn;
    apply no_new_online_refl.
Qed.

End Keeps.






















(* ===================================================================== *)
(** ** Socket events beyond the failure paths *)
(* ===================================================================== *)

(** What a [$set] that names neither [k] leaves of a document. *)
Lemma get_field_apply_set_other (k : string) (upd d : fields) :
  forallb (fun kv => negb (String.eqb (fst kv) k)) upd = true ->
  get_field k (apply_set upd d) = get_field k d.
Proof.
  intros H. rewrite get_field_apply_set.
  assert (Hn : forall acc,
             fold_left
               (fun acc kv => if String.eqb (fst kv) k && defined (snd kv)
                              then Some (snd kv) else acc) upd acc = acc).
  { induction upd as [|[k' v'] upd IH]; intros acc; cbn in *; [reflexivity |].
    apply andb_prop in H. destruct H as [Hk H].
    apply negb_true_iff in Hk. rewrite Hk. cbn. now apply IH. }
  unfold last_set. now rewrite Hn.
Qed.

Lemma eqb_neq_false (a b : string) : a <> b -> String.eqb a b = false.
Proof. intros H. now apply String.eqb_neq. Qed.

(** X1. A deviceConnect that carries the shared secret, for a camera or a
    signal that exists, puts the socket in the room "<type>-<id>", sets
    the record's status to "online" and its lastSeen to now, leaves every
    other field as it was, and publishes the record to "admin". *)
Theorem connect_with_secret_goes_online (w : world) (sid : nat)
    (data : connect_data) (s : state) (d : fields) :
  store_fault w = false ->
  strict_neq_env (con_apiKey data) (DEVICE_API_KEY w) = false ->
  let r := Sockets.deviceConnect w sid data s in
  (con_type data = "camera" -> cameras s !! con_id data = Some d ->
   (sid, "camera-" +:+ con_id data) ∈ rooms (final r) /\
   exists d',
     cameras (final r) !! con_id data = Some d' /\
     get_field "status" d' = online /\
     get_field "lastSeen" d' = VDate (now w) /\
     (forall k, k <> "status" -> k <> "lastSeen" ->
                get_field k d' = get_field k d) /\
     emissions (trace r)
     = [(ToRoom "admin", "cameraUpdate", load (con_id data) d')]) /\
  (con_type data = "signal" -> signals s !! con_id data = Some d ->
   (sid, "signal-" +:+ con_id data) ∈ rooms (final r) /\
   exists d',
     signals (final r) !! con_id data = Some d' /\
     get_field "status" d' = online /\
     get_field "lastSeen" d' = VDate (now w) /\
     (forall k, k <> "status" -> k <> "lastSeen" ->
                get_field k d' = get_field k d) /\
     emissions (trace r)
     = [(ToRoom "admin", "signalUpdate", load (con_id data) d')]).
Proof.
  intros Hw Hkey r. subst r. destruct data as [type id key]. cbn in *.
  split; intros -> Hd; unfold Sockets.deviceConnect; cbn; run;
    rewrite Hkey; cbn.
  - unfold findByIdAndUpdate, await. rewrite Hw. cbn. rewrite Hd. cbn.
    split; [set_solver |].
    eexists. split; [apply lookup_insert_eq |].
    rewrite !get_field_apply_set. repeat split; try reflexivity.
    intros k H1 H2. apply get_field_apply_set_other. cbn [forallb fst].
    now rewrite !eqb_neq_false by congruence.
  - unfold findByIdAndUpdate, await. rewrite Hw. cbn. rewrite Hd. cbn.
    split; [set_solver |].
    eexists. split; [apply lookup_insert_eq |].
    rewrite !get_field_apply_set. repeat split; try reflexivity.
    intros k H1 H2. apply get_field_apply_set_other. cbn [forallb fst].
    now rewrite !eqb_neq_false by congruence.
Qed.

Lemma connect_with_secret_goes_online_witness :
  store_fault quiet = false /\
  strict_neq_env (VStr "s3cret") (DEVICE_API_KEY quiet) = false /\
  cameras one_camera !! "cam1" = Some gate_camera /\
  get_field "status" gate_camera = VStr "offline" /\
  (4%nat, "camera-cam1")
  ∈ rooms (final (Sockets.deviceConnect quiet 4 (connect_cam1 (VStr "s3cret"))
                    one_camera)) /\
  exists d',
    cameras (final (Sockets.deviceConnect quiet 4
                      (connect_cam1 (VStr "s3cret")) one_camera))
      !! "cam1" = Some d' /\
    get_field "status" d' = online /\
    get_field "name" d' = VStr "Gate".
Proof.
  do 4 (split; [reflexivity |]).
  destruct (connect_with_secret_goes_online quiet 4
              (connect_cam1 (VStr "s3cret")) one_camera gate_camera
              eq_refl eq_refl) as [Hc _].
  destruct (Hc eq_refl eq_refl) as (Hroom & d' & Hd & Hst & _ & Hk & _).
  split; [exact Hroom |].
  exists d'. split; [exact Hd |]. split; [exact Hst |].
  now rewrite Hk.
Defined.

(** X2. The room is joined before the store is consulted: a deviceConnect
    with the shared secret leaves the socket in "<type>-<id>" whatever
    follows. For a type other than "camera" and "signal" nothing is
    written or emitted; when the store rejects the update the sender is
    told "Authentication failed", and is in the room all the same. *)
Theorem connect_joins_before_store (w : world) (sid : nat)
    (data : connect_data) (s : state) :
  strict_neq_env (con_apiKey data) (DEVICE_API_KEY w) = false ->
  let r := Sockets.deviceConnect w sid data s in
  rooms (final r) = {[ (sid, con_type data +:+ "-" +:+ con_id data) ]} ∪ rooms s
  /\
  (con_type data <> "camera" -> con_type data <> "signal" ->
   cameras (final r) = cameras s /\ signals (final r) = signals s /\
   emissions (trace r) = []) /\
  (store_fault w = true ->
   con_type data = "camera" \/ con_type data = "signal" ->
   cameras (final r) = cameras s /\ signals (final r) = signals s /\
   emissions (trace r)
   = [(ToSocket sid, "error", message "Authentication failed")]).
Proof.
  intros Hkey r. subst r. destruct data as [type id key]. cbn in *.
  unfold Sockets.deviceConnect. cbn. run. rewrite Hkey. cbn.
  unfold findByIdAndUpdate, await.
  split; [| split].
  - destruct (String.eqb type "camera"); [| destruct (String.eqb type "signal")];
      cbn; try reflexivity;
      (destruct (store_fault w); cbn; [reflexivity |]);
      (destruct (_ !! id); cbn; reflexivity).
  - intros H1 H2. rewrite !eqb_neq_false by assumption. cbn.
    repeat split; reflexivity.
  - intros Hw [-> | ->]; cbn; rewrite Hw; cbn; repeat split; reflexivity.
Qed.

Lemma connect_joins_before_store_witness :
  strict_neq_env (VStr "s3cret") (DEVICE_API_KEY faulty) = false /\
  store_fault faulty = true /\
  rooms (final (Sockets.deviceConnect faulty 4 (connect_cam1 (VStr "s3cret"))
                  one_camera))
  = {[ (4%nat, "camera-cam1") ]} ∪ rooms one_camera /\
  emissions (trace (Sockets.deviceConnect faulty 4
                      (connect_cam1 (VStr "s3cret")) one_camera))
  = [(ToSocket 4, "error", message "Authentication failed")].
Proof.
  do 2 (split; [reflexivity |]).
  destruct (connect_joins_before_store faulty 4 (connect_cam1 (VStr "s3cret"))
              one_camera eq_refl) as (Hr & _ & Hf).
  split; [exact Hr |].
  exact (proj2 (proj2 (Hf eq_refl (or_introl eq_refl)))).
Defined.



(** X4. The control events do not check that the record exists: for an id
    the store does not have, the null lookup result is published to
    "admin" and [settings] is still forwarded to the device room; nothing
    is written and the sender gets no error. *)
Theorem control_unknown_id_still_forwards (w : world) (sid : nat)
    (data : control_data) (s : state) :
  store_fault w = false ->
  (cameras s !! ctl_id data = None ->
   let r := Sockets.cameraControl w sid data s in
   final r = s /\
   emissions (trace r)
   = [(ToRoom "admin", "cameraUpdate", VNull);
      (ToRoom ("camera-" +:+ ctl_id data), "configUpdate",
       ctl_settings data)]) /\
  (signals s !! ctl_id data = None ->
   let r := Sockets.signalControl w sid data s in
   final r = s /\
   emissions (trace r)
   = [(ToRoom "admin", "signalUpdate", VNull);
      (ToRoom ("signal-" +:+ ctl_id data), "configUpdate",
       ctl_settings data)]).
Proof.
  intros Hw. split; intros Hd r; subst r;
    unfold Sockets.cameraControl, Sockets.signalControl; run.
  - rewrite (run_findByIdAndUpdate_none w Camera _ _ s Hw Hd).
    cbn. split; reflexivity.
  - rewrite (run_findByIdAndUpdate_none w Signal _ _ s Hw Hd).
    cbn. split; reflexivity.
Qed.

Lemma control_unknown_id_still_forwards_witness :
  store_fault quiet = false /\
  cameras one_signal !! ctl_id dim_cam1 = None /\
  emissions (trace (Sockets.cameraControl quiet 3 dim_cam1 one_signal))
  = [(ToRoom "admin", "cameraUpdate", VNull);
     (ToRoom "camera-cam1", "configUpdate", ctl_settings dim_cam1)].
Proof.
  do 2 (split; [reflexivity |]).
  destruct (control_unknown_id_still_forwards quiet 3 dim_cam1 one_signal
              eq_refl) as [Hc _].
  exact (proj2 (Hc eq_refl)).
Defined.

(** X5. authenticate changes room membership only: a token that verifies
    adds the socket to "admin"; one that does not leaves the state as it
    was. Either way nothing is emitted, so a rejected client is not
    told. *)
Theorem authenticate_joins_admin_or_nothing (w : world) (sid : nat)
    (token : value) (s : state) :
  let r := Sockets.authenticate w sid token s in
  outcome r = Ret tt /\
  emissions (trace r) = [] /\
  cameras (final r) = cameras s /\
  signals (final r) = signals s /\
  analytics (final r) = analytics s /\
  rooms (final r)
  = (if jwt_verify w token then {[ (sid, "admin") ]} ∪ rooms s else rooms s).
Proof.
  intros r. subst r. unfold Sockets.authenticate. run.
  destruct (jwt_verify w token); cbn; repeat split; reflexivity.
Qed.

(* ===================================================================== *)
(** ** The aggregator in isolation and over several samples *)
(* ===================================================================== *)


(** The run of processTrafficAnalytics when the payload is null or the
    store rejects: a log line, and nothing else. *)
Lemma processTrafficAnalytics_fails (w : world) (metrics : value)
    (s : state) :
  store_fault w = true \/ nullish metrics = true ->
  Sockets.processTrafficAnalytics w metrics s
  = (Ret tt, s, [Log "Analytics processing error:"]).
Proof.
  intros H. unfold Sockets.processTrafficAnalytics. run.
  destruct (nullish metrics); cbn; [reflexivity |].
  destruct H as [-> | H]; [reflexivity | discriminate].
Qed.

(** X6. A failure of the aggregator does not fail the telemetry push that
    triggered it: a camera push whose metrics is null still updates the
    record (metrics becomes null, lastSeen now) and still publishes the
    cameraUpdate; the aggregator only logs, stores no sample and
    publishes no rollup. *)
Theorem telemetry_survives_aggregator_failure (w : world) (sid : nat)
    (id : string) (s : state) (d : fields) :
  store_fault w = false ->
  cameras s !! id = Some d ->
  let r := Sockets.deviceData w sid
             {| dev_type := "camera"; dev_id := id; dev_metrics := VNull |} s in
  outcome r = Ret tt /\
  analytics (final r) = analytics s /\
  exists d',
    cameras (final r) !! id = Some d' /\
    get_field "metrics" d' = VNull /\
    get_field "lastSeen" d' = VDate (now w) /\
    trace r = [Emit (ToRoom "admin") "cameraUpdate" (load id d');
               Log "Analytics processing error:"].
Proof.
  intros Hw Hd r. subst r. unfold Sockets.deviceData. cbn. run.
  rewrite (run_findByIdAndUpdate_some w Camera id _ s d Hw Hd) by reflexivity.
  rewrite processTrafficAnalytics_fails by (right; reflexivity).
  cbn. split; [reflexivity |]. split; [reflexivity |].
  eexists. split; [apply lookup_insert_eq |].
  rewrite !get_field_apply_set. repeat split; reflexivity.
Qed.

Lemma telemetry_survives_aggregator_failure_witness :
  store_fault quiet = false /\
  cameras one_camera !! "cam1" = Some gate_camera /\
  outcome (Sockets.deviceData quiet 2 null_push_cam1 one_camera) = Ret tt /\
  analytics (final (Sockets.deviceData quiet 2 null_push_cam1 one_camera))
  = [].
Proof.
  do 2 (split; [reflexivity |]).
  destruct (telemetry_survives_aggregator_failure quiet 2 "cam1" one_camera
              gate_camera eq_refl eq_refl) as (H1 & H2 & _).
  split; [exact H1 | exact H2].
Defined.









(* ===================================================================== *)
(** ** The REST routers beyond the update acknowledgement *)
(* ===================================================================== *)

Lemma run_findById (w : world) (m : model) (id : string) (s : state) :
  findById w m id s
  = if store_fault w then (Throw "StoreError", s, [])
    else match coll m s !! id with
         | None => (Ret VNull, s, [])
         | Some d => (Ret (load id d), s, [])
         end.
Proof.
  unfold findById, await. destruct (store_fault w); [reflexivity |].
  now destruct (coll m s !! id).
Qed.

(** X8. An update addressed to an id the store does not have is answered
    404 with the "not found" message; nothing is written and nothing is
    published. This holds for PUT /:id, PUT /:id/settings and
    POST /:id/control of the signal router and for the two PUT routes of
    the camera router. *)
Theorem update_absent_is_not_found (w : world) (id : string) (body : value)
    (s : state) :
  store_fault w = false ->
  (signals s !! id = None ->
   Forall (fun r => final r = s /\ emissions (trace r) = [] /\
                    responses (trace r)
                    = [(404, message "Signal not found")])
     [SignalRoutes.put w id body s; SignalRoutes.put_settings w id body s;
      SignalRoutes.control w id body s]) /\
  (cameras s !! id = None ->
   Forall (fun r => final r = s /\ emissions (trace r) = [] /\
                    responses (trace r)
                    = [(404, message "Camera not found")])
     [CameraRoutes.put w id body s; CameraRoutes.put_settings w id body s]).
Proof.
  intros Hw. split; intros Hd; repeat constructor;
    unfold SignalRoutes.put, SignalRoutes.put_settings, SignalRoutes.control,
      CameraRoutes.put, CameraRoutes.put_settings; run;
    rewrite ?run_findById, ?Hw;
    rewrite ?(run_findByIdAndUpdate_none w Signal id _ s Hw Hd),
      ?(run_findByIdAndUpdate_none w Camera id _ s Hw Hd);
    cbn; rewrite ?Hd; reflexivity.
Qed.

Lemma update_absent_is_not_found_witness :
  store_fault quiet = false /\
  signals one_camera !! "sig9" = None /\
  responses (trace (SignalRoutes.control quiet "sig9" to_manual one_camera))
  = [(404, message "Signal not found")] /\
  final (CameraRoutes.put_settings quiet "cam9" to_manual one_camera)
  = one_camera.
Proof.
  do 2 (split; [reflexivity |]).
  destruct (update_absent_is_not_found quiet "sig9" to_manual one_camera
              eq_refl) as [Hs _].
  destruct (update_absent_is_not_found quiet "cam9" to_manual one_camera
              eq_refl) as [_ Hc].
  specialize (Hs eq_refl). specialize (Hc eq_refl).
  apply List.Forall_inv_tail, List.Forall_inv_tail, List.Forall_inv in Hs.
  apply List.Forall_inv_tail, List.Forall_inv in Hc.
  split; [apply Hs | apply Hc].
Defined.

(** X9. When the store rejects, every route of the two routers answers 500
    with the generic "Server error" message, writes nothing and publishes
    nothing. *)
Theorem store_failure_is_server_error (w : world) (id : string)
    (body : value) (s : state) :
  store_fault w = true ->
  Forall (fun r => final r = s /\ emissions (trace r) = [] /\
                   responses (trace r) = [(500, message "Server error")])
    [SignalRoutes.post w id body s; SignalRoutes.put w id body s;
     SignalRoutes.delete w id s; SignalRoutes.put_settings w id body s;
     SignalRoutes.control w id body s;
     CameraRoutes.post w id body s; CameraRoutes.put w id body s;
     CameraRoutes.delete w id s; CameraRoutes.put_settings w id body s;
     Reads.signals_all w s; Reads.signals_one w id s;
     Reads.cameras_all w s; Reads.cameras_one w id s].
Proof.
  intros Hw. repeat constructor;
    unfold SignalRoutes.post, SignalRoutes.put, SignalRoutes.delete,
      SignalRoutes.put_settings, SignalRoutes.control,
      CameraRoutes.post, CameraRoutes.put, CameraRoutes.delete,
      CameraRoutes.put_settings, Reads.signals_all, Reads.signals_one,
      Reads.cameras_all, Reads.cameras_one,
      findByIdAndUpdate, findByIdAndDelete, findById, save_new, find_all;
    run; rewrite Hw; reflexivity.
Qed.

Lemma store_failure_is_server_error_witness :
  store_fault faulty = true /\
  responses (trace (SignalRoutes.put faulty "sig1" to_manual one_signal))
  = [(500, message "Server error")] /\
  final (SignalRoutes.put faulty "sig1" to_manual one_signal) = one_signal.
Proof.
  split; [reflexivity |].
  pose proof (store_failure_is_server_error faulty "sig1" to_manual one_signal
                eq_refl) as H.
  apply List.Forall_inv_tail, List.Forall_inv in H.
  split; apply H.
Defined.

(** X10. DELETE of a record that exists removes exactly that record,
    publishes the deletion notice {id} to "admin" (signalDeleted or
    cameraDeleted) and answers 200; a GET of the same id afterwards is
    answered 404. *)
Theorem delete_removes_and_notifies (w : world) (id : string) (s : state)
    (d : fields) :
  store_fault w = false ->
  (signals s !! id = Some d ->
   let r := SignalRoutes.delete w id s in
   signals (final r) = delete id (signals s) /\
   cameras (final r) = cameras s /\
   trace r
   = [Emit (ToRoom "admin") "signalDeleted" (VObj [("id", VStr id)]);
      Respond 200 (message "Signal deleted successfully")] /\
   responses (trace (Reads.signals_one w id (final r)))
   = [(404, message "Signal not found")]) /\
  (cameras s !! id = Some d ->
   let r := CameraRoutes.delete w id s in
   cameras (final r) = delete id (cameras s) /\
   signals (final r) = signals s /\
   trace r
   = [Emit (ToRoom "admin") "cameraDeleted" (VObj [("id", VStr id)]);
      Respond 200 (message "Camera deleted successfully")] /\
   responses (trace (Reads.cameras_one w id (final r)))
   = [(404, message "Camera not found")]).
Proof.
  intros Hw. split; intros Hd r; subst r;
    unfold SignalRoutes.delete, CameraRoutes.delete, Reads.signals_one,
      Reads.cameras_one, findByIdAndDelete; run;
    rewrite run_findById; unfold await; rewrite Hw; cbn; rewrite Hd; cbn;
    rewrite lookup_delete_eq; repeat split; reflexivity.
Qed.

Lemma delete_removes_and_notifies_witness :
  store_fault quiet = false /\
  signals one_signal !! "sig1" = Some junction1 /\
  signals (final (SignalRoutes.delete quiet "sig1" one_signal))
  = delete "sig1" (signals one_signal) /\
  responses (trace (Reads.signals_one quiet "sig1"
                      (final (SignalRoutes.delete quiet "sig1" one_signal))))
  = [(404, message "Signal not found")].
Proof.
  do 2 (split; [reflexivity |]).
  destruct (delete_removes_and_notifies quiet "sig1" one_signal junction1
              eq_refl) as [Hs _].
  destruct (Hs eq_refl) as (H1 & _ & _ & H2).
  split; [exact H1 | exact H2].
Defined.




Lemma undefined_is_undef (v : value) : defined v = false -> v = VUndef.
Proof. now destruct v. Qed.

(** X12. POST without a name or without a location (absent, null or the
    empty string) is refused by the required validators when the document
    is saved: the answer is the generic 500, nothing is stored and nothing
    is published. *)
Theorem post_without_required_field (w : world) (newid : string)
    (body : value) (s : state) :
  required (prop body "name") = false \/
  required (prop body "location") = false ->
  Forall (fun r => final r = s /\ emissions (trace r) = [] /\
                   responses (trace r) = [(500, message "Server error")])
    [SignalRoutes.post w newid body s; CameraRoutes.post w newid body s].
Proof.
  intros Hreq.
  assert (Hn : (if defined (prop body "name") then prop body "name"
                else VUndef) = prop body "name").
  { destruct (defined (prop body "name")) eqn:E; [reflexivity |].
    symmetry. now apply undefined_is_undef. }
  assert (Hl : (if defined (prop body "location") then prop body "location"
                else VUndef) = prop body "location").
  { destruct (defined (prop body "location")) eqn:E; [reflexivity |].
    symmetry. now apply undefined_is_undef. }
  assert (Hboth : required (prop body "name")
                  && (required (prop body "location") && true) = false).
  { destruct Hreq as [-> | ->]; [reflexivity |].
    now rewrite andb_false_r. }
  repeat constructor;
    unfold SignalRoutes.post, CameraRoutes.post, save_new; run;
    unfold await; (destruct (store_fault w); [reflexivity |]);
    cbn [forallb]; rewrite !get_field_apply_set; unfold last_set; cbn;
    (replace (match (if defined (prop body "name")
                     then Some (prop body "name") else None) with
              | Some v => v | None => VUndef end)
       with (prop body "name")
       by (now destruct (defined (prop body "name")); rewrite <- ?Hn));
    (replace (match (if defined (prop body "location")
                     then Some (prop body "location") else None) with
              | Some v => v | None => VUndef end)
       with (prop body "location")
       by (now destruct (defined (prop body "location")); rewrite <- ?Hl));
    rewrite Hboth; reflexivity.
Qed.

Lemma post_without_required_field_witness :
  required (prop nameless "name") = false /\
  final (CameraRoutes.post quiet "cam7" nameless one_camera) = one_camera /\
  responses (trace (CameraRoutes.post quiet "cam7" nameless one_camera))
  = [(500, message "Server error")].
Proof.
  split; [reflexivity |].
  pose proof (post_without_required_field quiet "cam7" nameless one_camera
                (or_introl eq_refl)) as H.
  apply List.Forall_inv_tail, List.Forall_inv in H.
  split; apply H.
Defined.

Lemma not_in_cons_eqb (k k' : string) (ks : list string) :
  ~ In k (k' :: ks) -> String.eqb k' k = false /\ ~ In k ks.
Proof.
  intros H. split.
  - apply String.eqb_neq. intros ->. apply H. now left.
  - intros Hin. apply H. now right.
Qed.







(* ===================================================================== *)
(** ** The hourly trend: order, coverage and range *)
(* ===================================================================== *)

Ltac split_before :=
  repeat match goal with
         | |- context [?x <? ?y] =>
             let E := fresh "E" in destruct (x <? y) eqn:E
         end;
  repeat match goal with
         | E : (_ <? _) = true |- _ => apply Z.ltb_lt in E
         | E : (_ <? _) = false |- _ => apply Z.ltb_ge in E
         end.

Lemma before_spec (a b : Dashboard.bucket_id) :
  Dashboard.before a b = true <-> earlier a b \/ a = b.
Proof.
  unfold Dashboard.before, earlier. destruct a as [ya ma da ha].
  destruct b as [yb mb db hb]. cbn. split_before;
    rewrite ?Z.leb_le; split; intros G.
  all: try discriminate G.
  all: try (destruct (Z.eq_dec ha hb);
            first [left; lia | right; f_equal; lia]).
  all: destruct G as [G | G]; [| injection G as -> -> -> ->];
       first [reflexivity | lia | exfalso; lia].
Qed.

Lemma before_total (a b : Dashboard.bucket_id) :
  Dashboard.before a b = false -> Dashboard.before b a = true.
Proof.
  unfold Dashboard.before. destruct a as [ya ma da ha].
  destruct b as [yb mb db hb]. cbn. split_before;
    rewrite ?Z.leb_le, ?Z.leb_gt; intros G;
    first [reflexivity | discriminate G | lia | exfalso; lia].
Qed.

Lemma earlier_trans (a b c : Dashboard.bucket_id) :
  earlier a b -> earlier b c -> earlier a c.
Proof. unfold earlier. lia. Qed.

Lemma earlier_irrefl (a : Dashboard.bucket_id) : ~ earlier a a.
Proof. unfold earlier. lia. Qed.

Lemma insert_sorted_ascending (b : Dashboard.bucket)
    (bs : list Dashboard.bucket) :
  ascending bs -> ascending (Dashboard.insert_sorted b bs).
Proof.
  induction 1 as [|b' bs Hb' Hbs IH]; cbn.
  - repeat constructor.
  - destruct (Dashboard.before (Dashboard._id b) (Dashboard._id b')) eqn:E.
    + apply before_spec in E. constructor; [| now constructor].
      constructor; [exact E |].
      unfold bounded_below in *. rewrite Forall_forall in Hb' |- *.
      intros x Hx. specialize (Hb' x Hx).
      destruct E as [E | ->]; [| exact Hb'].
      destruct Hb' as [Hb' | <-]; [| now left].
      left. eapply earlier_trans; eassumption.
    + apply before_total, before_spec in E. constructor; [| exact IH].
      unfold bounded_below in *. rewrite Forall_forall in Hb' |- *.
      intros x Hx. apply list_elem_of_In, TrendFacts.insert_sorted_In in Hx.
      destruct Hx as [-> | Hx]; [exact E |].
      apply Hb'. now apply list_elem_of_In.
Qed.

Lemma sort_ascending (bs : list Dashboard.bucket) :
  ascending (Dashboard.sort bs).
Proof.
  unfold Dashboard.sort. induction bs as [|b bs IH]; cbn;
    [constructor | now apply insert_sorted_ascending].
Qed.

Lemma ascending_lookup (bs : list Dashboard.bucket) :
  ascending bs ->
  forall i j a b,
    (i < j)%nat -> bs !! i = Some a -> bs !! j = Some b ->
    earlier (Dashboard._id a) (Dashboard._id b)
    \/ Dashboard._id a = Dashboard._id b.
Proof.
  induction 1 as [|b0 bs Hb0 Hbs IH]; intros i j a b Hij Hi Hj;
    [discriminate |].
  destruct i as [|i]; destruct j as [|j]; try lia; cbn in *.
  - injection Hi as <-. unfold bounded_below in Hb0.
    rewrite Forall_forall in Hb0. apply Hb0.
    eapply list_elem_of_lookup_2. exact Hj.
  - eapply IH; [| eassumption | eassumption]. lia.
Qed.

(** X16. The groups of the trend come out in strictly increasing order of
    (year, month, day, hour): of two groups, the one listed first is the
    earlier one. *)
Theorem trend_is_chronological (w : world) (docs : list fields)
    (i j : nat) (a b : Dashboard.bucket) :
  (i < j)%nat ->
  Dashboard.hourlyTraffic w docs !! i = Some a ->
  Dashboard.hourlyTraffic w docs !! j = Some b ->
  earlier (Dashboard._id a) (Dashboard._id b).
Proof.
  intros Hij Hi Hj.
  destruct (ascending_lookup (Dashboard.hourlyTraffic w docs)
              (sort_ascending _) i j a b Hij Hi Hj) as [H | H];
    [exact H | exfalso].
  pose proof (hourlyTraffic_keys_NoDup w docs) as Hnd.
  apply NoDup_ListNoDup in Hnd.
  assert (i = j); [| lia].
  eapply (NoDup_lookup _ i j (Dashboard._id a) Hnd).
  - rewrite list_lookup_fmap, Hi. reflexivity.
  - rewrite list_lookup_fmap, Hj, H. reflexivity.
Qed.

Lemma trend_is_chronological_witness :
  (0 < 1)%nat /\
  exists a b,
    Dashboard.hourlyTraffic quiet [late_low; stale_high; two_pm_high] !! 0%nat
    = Some a /\
    Dashboard.hourlyTraffic quiet [late_low; stale_high; two_pm_high] !! 1%nat
    = Some b /\
    Dashboard.hour (Dashboard._id a) = 14 /\
    Dashboard.hour (Dashboard._id b) = 15 /\
    earlier (Dashboard._id a) (Dashboard._id b).
Proof.
  split; [lia |].
  eexists. eexists.
  split; [vm_compute; reflexivity |]. split; [vm_compute; reflexivity |].
  split; [reflexivity |]. split; [reflexivity |].
  eapply (trend_is_chronological quiet [late_low; stale_high; two_pm_high]
            0 1); [lia | vm_compute; reflexivity | vm_compute; reflexivity].
Defined.

Lemma Qsum_bounds (lo hi : Q) (qs : list Q) :
  Forall (fun q => (lo <= q)%Q /\ (q <= hi)%Q) qs ->
  (inject_Z (Z.of_nat (length qs)) * lo <= Qsum qs)%Q /\
  (Qsum qs <= inject_Z (Z.of_nat (length qs)) * hi)%Q.
Proof.
  induction 1 as [|q qs [Hlo Hhi] _ [IHlo IHhi]].
  { unfold Qsum. cbn [length fold_right Z.of_nat].
    change (inject_Z (Z.of_nat 0)) with 0%Q. split; lra. }
  cbn [length Qsum fold_right]. fold (Qsum qs).
  rewrite Nat2Z.inj_succ, <- Z.add_1_l, inject_Z_plus.
  change (inject_Z 1) with 1%Q. split; lra.
Qed.

Lemma mean_bounds (lo hi : Q) (qs : list Q) :
  qs <> [] ->
  Forall (fun q => (lo <= q)%Q /\ (q <= hi)%Q) qs ->
  (lo <= mean qs)%Q /\ (mean qs <= hi)%Q.
Proof.
  intros Hne Hall. destruct (Qsum_bounds lo hi qs Hall) as [Hlo Hhi].
  assert (Hn : (0 < inject_Z (Z.of_nat (length qs)))%Q).
  { change 0%Q with (inject_Z 0). rewrite <- Zlt_Qlt.
    destruct qs; [congruence | cbn; lia]. }
  unfold mean. split.
  - apply Qle_shift_div_l; [exact Hn |]. lra.
  - apply Qle_shift_div_r; [exact Hn |]. lra.
Qed.

Lemma congestion_score_range (label : value) :
  (1 <= Dashboard.congestion_score label)%Q /\
  (Dashboard.congestion_score label <= 3)%Q.
Proof.
  unfold Dashboard.congestion_score. destruct label; try (split; discriminate).
  destruct (String.eqb s "High"); [split; discriminate |].
  destruct (String.eqb s "Moderate"); split; discriminate.
Qed.

(** X17. The averaged score of every group lies between 1 and 3. When no
    sample is labelled "High" or "Moderate", which includes every store
    that keeps to the labels of the Analytics schema minus High (Low,
    Medium, Unknown), each point of the trend is labelled "Low". *)
Theorem trend_average_in_range (w : world) (docs : list fields) :
  (forall b, In b (Dashboard.hourlyTraffic w docs) ->
     (1 <= Dashboard.averageCongestion b)%Q /\
     (Dashboard.averageCongestion b <= 3)%Q) /\
  ((forall d, In d docs ->
      get_field "congestionLevel" d <> VStr "High" /\
      get_field "congestionLevel" d <> VStr "Moderate") ->
   forall p,
     In p (Dashboard.trafficTrend (Dashboard.hourlyTraffic w docs)) ->
     Dashboard.congestionLevel p = "Low").
Proof.
  split.
  - intros b Hb.
    destruct (TrendFacts.hourlyTraffic_bucket w docs b Hb) as (Hne & -> & _).
    apply mean_bounds.
    + intros Hnil. apply Hne. now destruct (Dashboard.members _ _).
    + apply List.Forall_forall. intros q Hq.
      apply List.in_map_iff in Hq. destruct Hq as (d & <- & _).
      apply congestion_score_range.
  - intros Hlab p Hp. unfold Dashboard.trafficTrend in Hp.
    apply List.in_map_iff in Hp. destruct Hp as (b & <- & Hb). cbn.
    destruct (TrendFacts.hourlyTraffic_bucket w docs b Hb) as (Hne & -> & _).
    apply TrendFacts.trend_label_low.
    apply Qle_lt_trans with (y := 1%Q); [| reflexivity].
    apply (mean_bounds 1 1).
    + intros Hnil. apply Hne. now destruct (Dashboard.members _ _).
    + apply List.Forall_forall. intros q Hq.
      apply List.in_map_iff in Hq. destruct Hq as (d & <- & Hd).
      apply TrendFacts.members_In in Hd. destruct Hd as [Hd _].
      apply List.filter_In in Hd. destruct Hd as [Hd _].
      destruct (Hlab d Hd) as [H1 H2].
      unfold Dashboard.congestion_score.
      destruct (get_field "congestionLevel" d) as [| | | |s| | |];
        try (split; discriminate).
      destruct (String.eqb s "High") eqn:E1;
        [apply String.eqb_eq in E1; congruence |].
      destruct (String.eqb s "Moderate") eqn:E2;
        [apply String.eqb_eq in E2; congruence |].
      split; discriminate.
Qed.

Lemma trend_average_in_range_witness :
  (forall d, In d [two_pm_low; two_pm_medium] ->
     get_field "congestionLevel" d <> VStr "High" /\
     get_field "congestionLevel" d <> VStr "Moderate") /\
  map Dashboard.congestionLevel
    (Dashboard.trafficTrend
       (Dashboard.hourlyTraffic quiet [two_pm_low; two_pm_medium]))
  = ["Low"] /\
  forall b,
    In b (Dashboard.hourlyTraffic quiet [two_pm_low; two_pm_medium]) ->
    (1 <= Dashboard.averageCongestion b)%Q.
Proof.
  assert (Hlab : forall d, In d [two_pm_low; two_pm_medium] ->
                   get_field "congestionLevel" d <> VStr "High" /\
                   get_field "congestionLevel" d <> VStr "Moderate").
  { intros d [<- | [<- | []]]; split; discriminate. }
  destruct (trend_average_in_range quiet [two_pm_low; two_pm_medium])
    as [Hrange Hlow].
  split; [exact Hlab |]. split.
  - specialize (Hlow Hlab).
    assert (Hone : exists p,
               Dashboard.trafficTrend
                 (Dashboard.hourlyTraffic quiet [two_pm_low; two_pm_medium])
               = [p]).
    { eexists. vm_compute. reflexivity. }
    destruct Hone as [p Hp]. rewrite Hp in Hlow |- *. cbn.
    now rewrite (Hlow p (or_introl eq_refl)).
  - intros b Hb. exact (proj1 (Hrange b Hb)).
Defined.




(* ===================================================================== *)
(** ** The bearer-token middleware and the role gate *)
(* ===================================================================== *)

Lemma split_space_spaceless (t : string) :
  spaceless t = true -> Gate.split_space t = [t].
Proof.
  induction t as [|c t IH]; cbn [spaceless Gate.split_space];
    [reflexivity |].
  intros H. apply andb_prop in H. destruct H as [Hc Ht].
  apply negb_true_iff in Hc. rewrite Hc, (IH Ht). reflexivity.
Qed.

Lemma split_space_two (scheme t : string) :
  spaceless scheme = true ->
  Gate.split_space (scheme +:+ " " +:+ t) = scheme :: Gate.split_space t.
Proof.
  induction scheme as [|c scheme IH];
    cbn [spaceless String.append Gate.split_space]; [reflexivity |].
  intros H. apply andb_prop in H. destruct H as [Hc Hs].
  apply negb_true_iff in Hc.
  change (String c scheme +:+ " " +:+ t)
    with (String c (scheme +:+ " " +:+ t)).
  cbn [Gate.split_space]. rewrite Hc, (IH Hs). reflexivity.
Qed.

(** X19. A request with no Authorization header, with a header of a single
    word, or with a header whose second word is empty never reaches the
    handler of a guarded route of index.js: it is answered 401
    "Authentication required" and the state is untouched. verifyToken of
    the dashboard router refuses the same requests with 401. *)
Theorem request_without_token_is_refused
    (verify : string -> option value) (roles : list string)
    (authorization : option string) (handler : M unit) (s : state) :
  authorization = None \/
  (exists h, authorization = Some h /\ spaceless h = true) \/
  (exists scheme,
     authorization = Some (scheme +:+ " ") /\ spaceless scheme = true) ->
  Gate.guarded verify roles authorization handler s
  = (Ret tt, s, [Respond 401 (message "Authentication required")]) /\
  Gate.verifyToken verify authorization
  = Gate.Reject 401 (message "Authentication token required").
Proof.
  unfold Gate.guarded, Gate.authenticateToken, Gate.verifyToken,
    Gate.second_word.
  intros [-> | [(h & -> & Hh) | (scheme & -> & Hs)]].
  - split; reflexivity.
  - rewrite (split_space_spaceless h Hh).
    destruct (truthy (VStr h)) eqn:E; cbn [truthy negb] in *;
      [split; reflexivity |].
    rewrite E. split; reflexivity.
  - change (scheme +:+ " ") with (scheme +:+ " " +:+ "").
    rewrite (split_space_two scheme "" Hs). cbn.
    destruct (String.eqb (scheme +:+ " " +:+ "") "") eqn:E; cbn;
      rewrite ?E; split; reflexivity.
Qed.

Lemma request_without_token_is_refused_witness :
  spaceless "adm-token" = true /\
  final (Gate.cameras_delete two_tokens (Some "adm-token") quiet "cam1"
           one_camera)
  = one_camera /\
  responses (trace (Gate.cameras_delete two_tokens (Some "adm-token") quiet
                      "cam1" one_camera))
  = [(401, message "Authentication required")].
Proof.
  split; [reflexivity |].
  destruct (request_without_token_is_refused two_tokens ["admin"]
              (Some "adm-token") (Index.cameras_delete quiet "cam1")
              one_camera) as [H _].
  { right. left. exists "adm-token". split; reflexivity. }
  unfold Gate.cameras_delete. rewrite H. split; reflexivity.
Defined.

(** X20. The token is the second space-separated word of the header and
    the first word is not looked at: whatever the scheme, a token that
    verifies lets the request through with the decoded payload; one that
    does not is answered 403 by authenticateToken of index.js and 401 by
    verifyToken of the dashboard router. *)
Theorem token_is_second_word (verify : string -> option value)
    (scheme t : string) :
  spaceless scheme = true -> spaceless t = true -> t <> "" ->
  Gate.authenticateToken verify (Some (scheme +:+ " " +:+ t))
  = (match verify t with
     | Some user => Gate.Next user
     | None => Gate.Reject 403 (message "Invalid or expired token")
     end) /\
  Gate.verifyToken verify (Some (scheme +:+ " " +:+ t))
  = (match verify t with
     | Some decoded => Gate.Next decoded
     | None => Gate.Reject 401 (message "Invalid token")
     end).
Proof.
  intros Hs Ht Hne.
  unfold Gate.authenticateToken, Gate.verifyToken, Gate.second_word.
  rewrite (split_space_two scheme t Hs), (split_space_spaceless t Ht).
  assert (Htr : truthy (VStr t) = true).
  { cbn. apply negb_true_iff. now apply String.eqb_neq. }
  assert (Hh : truthy (VStr (scheme +:+ " " +:+ t)) = true).
  { cbn [truthy]. apply negb_true_iff, String.eqb_neq.
    destruct scheme; discriminate. }
  rewrite Hh, Htr. cbn. split; now destruct (verify t).
Qed.

Lemma token_is_second_word_witness :
  spaceless "Basic" = true /\ spaceless "op-token" = true /\
  "op-token" <> "" /\
  Gate.authenticateToken two_tokens (Some "Basic op-token")
  = Gate.Next (VObj [("role", VStr "operator")]) /\
  Gate.verifyToken two_tokens (Some "Bearer stale")
  = Gate.Reject 401 (message "Invalid token").
Proof.
  split; [reflexivity |]. split; [reflexivity |]. split; [discriminate |].
  split.
  - exact (proj1 (token_is_second_word two_tokens "Basic" "op-token"
                    eq_refl eq_refl ltac:(discriminate))).
  - exact (proj2 (token_is_second_word two_tokens "Bearer" "stale"
                    eq_refl eq_refl ltac:(discriminate))).
Defined.

(** X21. Behind a token that verifies, the role of the payload decides.
    The two DELETE routes of index.js run for "admin" only; the POST and
    PUT routes run for "admin" and "operator". Any other role, or a
    payload without one, is answered 403 "Insufficient permissions" and
    the handler does not run. *)
Theorem role_gate (verify : string -> option value)
    (authorization : option string) (user : value) (w : world)
    (id : string) (body : value) (s : state) :
  Gate.authenticateToken verify authorization = Gate.Next user ->
  truthy user = true ->
  let refused :=
    (Ret tt, s, [Respond 403 (message "Insufficient permissions")]) in
  let deletes :=
    [(Gate.cameras_delete verify authorization w id s,
      Index.cameras_delete w id s);
     (Gate.signals_delete verify authorization w id s,
      Index.signals_delete w id s)] in
  let writes :=
    [(Gate.cameras_post verify authorization w id body s,
      Index.cameras_post w id body s);
     (Gate.cameras_put verify authorization w id body s,
      Index.cameras_put w id body s);
     (Gate.signals_post verify authorization w id body s,
      Index.signals_post w id body s);
     (Gate.signals_put verify authorization w id body s,
      Index.signals_put w id body s)] in
  (prop user "role" = VStr "admin" ->
   Forall (fun gb => fst gb = snd gb) (deletes ++ writes)) /\
  (prop user "role" = VStr "operator" ->
   Forall (fun gb => fst gb = refused) deletes /\
   Forall (fun gb => fst gb = snd gb) writes) /\
  (prop user "role" <> VStr "admin" ->
   prop user "role" <> VStr "operator" ->
   Forall (fun gb => fst gb = refused) (deletes ++ writes)).
Proof.
  intros Hauth Huser refused deletes writes. subst refused deletes writes.
  unfold Gate.cameras_delete, Gate.signals_delete, Gate.cameras_post,
    Gate.cameras_put, Gate.signals_post, Gate.signals_put, Gate.guarded.
  rewrite Hauth. unfold Gate.authorizeRole. rewrite Huser. cbn [negb].
  split; [| split].
  - intros ->. repeat constructor.
  - intros ->. split; repeat constructor.
  - intros H1 H2.
    assert (Hd : Gate.includes ["admin"] (prop user "role") = false).
    { destruct (prop user "role") as [| | | |r| | |]; try reflexivity. cbn.
      rewrite orb_false_r. apply String.eqb_neq. congruence. }
    assert (Hw : Gate.includes ["admin"; "operator"] (prop user "role")
                 = false).
    { destruct (prop user "role") as [| | | |r| | |]; try reflexivity. cbn.
      rewrite orb_false_r. apply orb_false_iff.
      split; apply String.eqb_neq; congruence. }
    rewrite Hd, Hw. repeat constructor.
Qed.

Lemma role_gate_witness :
  Gate.authenticateToken two_tokens (Some "Bearer op-token")
  = Gate.Next (VObj [("role", VStr "operator")]) /\
  cameras one_camera !! "cam1" = Some gate_camera /\
  final (Gate.cameras_delete two_tokens (Some "Bearer op-token") quiet "cam1"
           one_camera)
  = one_camera /\
  responses (trace (Gate.cameras_delete two_tokens (Some "Bearer op-token")
                      quiet "cam1" one_camera))
  = [(403, message "Insufficient permissions")] /\
  Gate.cameras_put two_tokens (Some "Bearer op-token") quiet "cam1"
    rename_body one_camera
  = Index.cameras_put quiet "cam1" rename_body one_camera.
Proof.
  split; [reflexivity |]. split; [reflexivity |].
  destruct (role_gate two_tokens (Some "Bearer op-token")
              (VObj [("role", VStr "operator")]) quiet "cam1" rename_body
              one_camera eq_refl eq_refl) as (_ & Hop & _).
  destruct (Hop eq_refl) as [Hdel Hwr].
  apply List.Forall_inv in Hdel.
  apply List.Forall_inv_tail, List.Forall_inv in Hwr.
  cbn [fst snd] in Hdel, Hwr. rewrite Hdel.
  split; [reflexivity |]. split; [reflexivity | exact Hwr].
Defined.

(* ===================================================================== *)
(** ** index.js: its REST updates, its simulator and its seed *)
(* ===================================================================== *)










Lemma fold_insert_non_empty (l : list (string * fields))
    (c : gmap string fields) :
  c <> ∅ \/ l <> [] ->
  fold_left (fun c kd => <[fst kd := snd kd]> c) l c <> ∅.
Proof.
  revert c. induction l as [| kd l IH]; intros c H; cbn.
  - destruct H as [H | H]; [exact H | now destruct H].
  - apply IH. left. apply insert_non_empty.
Qed.

Lemma count_zero_empty (c : gmap string fields) :
  (length (map_to_list c) =? 0)%nat = true <-> c = ∅.
Proof.
  rewrite Nat.eqb_eq, <- map_to_list_empty_iff.
  destruct (map_to_list c); cbn; split; congruence.
Qed.

Lemma count_non_zero (c : gmap string fields) :
  c <> ∅ -> (length (map_to_list c) =? 0)%nat = false.
Proof.
  intros H. destruct (length (map_to_list c) =? 0)%nat eqn:E; [| reflexivity].
  now apply count_zero_empty in E.
Qed.

Lemma createDemoData_seeded (w : world) (camera_ids signal_ids : list string)
    (s : state) :
  cameras s <> ∅ -> signals s <> ∅ ->
  final (Index.createDemoData w camera_ids signal_ids s) = s.
Proof.
  intros Hc Hs. unfold Index.createDemoData, find_all. run. unfold final.
  destruct (store_fault w); cbn [fst snd]; [reflexivity |].
  change (coll Camera s) with (cameras s).
  rewrite (count_non_zero _ Hc). cbn [fst snd].
  change (coll Signal s) with (signals s).
  rewrite (count_non_zero _ Hs). reflexivity.
Qed.

(** X25. The demo seed always completes and talks to no client. It fills a
    collection only when that collection is empty: a collection that
    holds a record is left exactly as it is. After one run on a working
    store (eight camera ids and four signal ids generated) neither
    collection is empty, so a further run changes nothing. *)
Theorem demo_seed_fills_only_empty_collections (w : world)
    (camera_ids signal_ids : list string) (s : state) :
  let r := Index.createDemoData w camera_ids signal_ids s in
  (outcome r = Ret tt /\ emissions (trace r) = [] /\
   responses (trace r) = [] /\
   analytics (final r) = analytics s /\ rooms (final r) = rooms s) /\
  (cameras s <> ∅ -> cameras (final r) = cameras s) /\
  (signals s <> ∅ -> signals (final r) = signals s) /\
  (store_fault w = false ->
   length camera_ids = 8%nat -> length signal_ids = 4%nat ->
   cameras (final r) <> ∅ /\ signals (final r) <> ∅ /\
   forall w' camera_ids' signal_ids',
     final (Index.createDemoData w' camera_ids' signal_ids' (final r))
     = final r).
Proof.
  intros r.
  assert (Hshape :
    (outcome r = Ret tt /\ emissions (trace r) = [] /\
     responses (trace r) = [] /\
     analytics (final r) = analytics s /\ rooms (final r) = rooms s) /\
    (cameras s <> ∅ -> cameras (final r) = cameras s) /\
    (signals s <> ∅ -> signals (final r) = signals s) /\
    (store_fault w = false ->
   length camera_ids = 8%nat -> length signal_ids = 4%nat ->
     cameras (final r) <> ∅ /\ signals (final r) <> ∅)).
  { subst r. unfold Index.createDemoData, find_all, Index.insertMany. run.
    unfold final, outcome, trace.
    destruct (store_fault w) eqn:Hw; cbn [fst snd].
    { cbn. repeat split; try reflexivity; discriminate. }
    change (coll Camera s) with (cameras s).
    destruct (length (map_to_list (cameras s)) =? 0)%nat eqn:Ec;
      cbn -[Index.demo_camera Index.demo_signal combine fold_left];
      destruct (length (map_to_list (signals s)) =? 0)%nat eqn:Es;
      cbn -[Index.demo_camera Index.demo_signal combine fold_left];
      rewrite ?count_zero_empty in *.
    all: split; [tauto |].
    all: split; [try tauto; intros H; now destruct H |].
    all: split; [try tauto; intros H; now destruct H |].
    all: intros _ Hci Hsi; split.
    all: try (apply fold_insert_non_empty; right;
              lazymatch goal with
              | |- combine ?l _ <> [] => destruct l; [discriminate | discriminate]
              end).
    all: intros H; rewrite <- count_zero_empty in H; congruence.
  }
  destruct Hshape as (H1 & H2 & H3 & H4).
  split; [exact H1 |]. split; [exact H2 |]. split; [exact H3 |].
  intros Hw Hc Hs. destruct (H4 Hw Hc Hs) as [Hc' Hs'].
  split; [exact Hc' |]. split; [exact Hs' |].
  intros w' c' s'. now apply createDemoData_seeded.
Qed.

Lemma demo_seed_fills_only_empty_collections_witness :
  store_fault quiet = false /\
  cameras one_camera <> ∅ /\
  cameras (final (Index.createDemoData quiet seed_camera_ids seed_signal_ids one_camera))
  = cameras one_camera /\
  signals (final (Index.createDemoData quiet seed_camera_ids seed_signal_ids one_camera)) <> ∅ /\
  final (Index.createDemoData faulty [] []
           (final (Index.createDemoData quiet seed_camera_ids seed_signal_ids one_camera)))
  = final (Index.createDemoData quiet seed_camera_ids seed_signal_ids one_camera).
Proof.
  assert (Hne : cameras one_camera <> ∅).
  { intros H. apply (f_equal (fun m => m !! "cam1")) in H. discriminate H. }
  split; [reflexivity |]. split; [exact Hne |].
  destruct (demo_seed_fills_only_empty_collections quiet seed_camera_ids seed_signal_ids
              one_camera) as (_ & Hc & _ & Hrun).
  split; [exact (Hc Hne) |].
  destruct (Hrun eq_refl eq_refl eq_refl)
    as (_ & Hs & Hagain).
  split; [exact Hs | apply Hagain].
Defined.

(* ===================================================================== *)
(** ** index.js: the congestion label of the dashboard *)
(* ===================================================================== *)

Lemma tally_named (signals : list fields) (a : Z) (n : nat) :
  Forall named_level signals ->
  fold_left tally_step signals (Some a, n)
  = (Some (a + Z.of_nat (with_level "Low" signals)
             + 2 * Z.of_nat (with_level "Medium" signals)
             + 3 * Z.of_nat (with_level "High" signals)),
     (n + with_level "Low" signals + with_level "Medium" signals
        + with_level "High" signals)%nat).
Proof.
  intros H. revert a n. induction H as [| d l Hd _ IH]; intros a n.
  - cbn. apply injective_projections; cbn [fst snd]; [f_equal; lia | lia].
  - cbn [fold_left]. unfold named_level in Hd. unfold with_level, tally_step.
    cbn [List.filter].
    destruct Hd as [Hd | [Hd | [Hd | [Hd | []]]]]; rewrite <- Hd;
      cbn -[Z.of_nat Z.mul Z.add]; fold tally_step; rewrite IH;
      unfold with_level;
      (apply injective_projections; cbn [fst snd]; [f_equal; lia | lia]).
Qed.

Lemma at_least_ratio (z : Z) (n : nat) (p q : positive) :
  (0 < n)%nat ->
  Qle_bool (Z.pos p # q) (inject_Z z / inject_Z (Z.of_nat n))
  = (Z.pos p * Z.of_nat n <=? z * Z.pos q)%Z.
Proof.
  intros Hn.
  assert (Hpos : (0 < inject_Z (Z.of_nat n))%Q).
  { change 0%Q with (inject_Z 0). rewrite <- Zlt_Qlt. lia. }
  apply eq_true_iff_eq. rewrite Qle_bool_iff, Z.leb_le.
  split; intros H.
  - apply (Qmult_le_r _ _ _ Hpos) in H.
    unfold Qdiv in H. rewrite <- Qmult_assoc in H.
    rewrite (Qmult_comm (/ _)) in H. rewrite Qmult_inv_r in H
      by (intros E; rewrite E in Hpos; discriminate).
    rewrite Qmult_1_r in H. unfold Qle in H. cbn in H. lia.
  - apply Qle_shift_div_l; [exact Hpos |]. unfold Qle. cbn. lia.
Qed.

Lemma tally_fold (signals : list fields) :
  ApiDashboard.tally signals = fold_left tally_step signals (Some 0, 0%nat).
Proof. reflexivity. Qed.

Lemma tally_step_swap (acc : option Z * nat) (x y : fields) :
  tally_step (tally_step acc x) y = tally_step (tally_step acc y) x.
Proof.
  unfold tally_step. destruct acc as [sum n]. cbn [fst snd].
  destruct (ApiDashboard.known (get_field "congestionLevel" x));
    destruct (ApiDashboard.known (get_field "congestionLevel" y));
    cbn [fst snd]; try reflexivity.
  f_equal.
  destruct sum as [a |],
    (ApiDashboard.congestionMap (get_field "congestionLevel" x)) as [b |],
    (ApiDashboard.congestionMap (get_field "congestionLevel" y)) as [c |];
    cbn; try reflexivity.
  f_equal. lia.
Qed.

Lemma tally_Permutation (l l' : list fields) :
  Permutation l l' ->
  forall acc, fold_left tally_step l acc = fold_left tally_step l' acc.
Proof.
  induction 1 as [| x l l' _ IH | x y l | l l' l'' _ IH1 _ IH2]; intros acc.
  - reflexivity.
  - cbn. apply IH.
  - cbn. now rewrite tally_step_swap.
  - now rewrite IH1.
Qed.

Lemma tally_skips_unknown (l : list fields) (acc : option Z * nat) :
  fold_left tally_step
    (List.filter
       (fun d => ApiDashboard.known (get_field "congestionLevel" d)) l) acc
  = fold_left tally_step l acc.
Proof.
  revert acc. induction l as [| d l IH]; intros acc; [reflexivity |].
  cbn [List.filter fold_left].
  destruct (ApiDashboard.known (get_field "congestionLevel" d)) eqn:E.
  - cbn [fold_left]. apply IH.
  - rewrite IH. f_equal. unfold tally_step. now rewrite E.
Qed.

Lemma tally_stays_poisoned (l : list fields) (n : nat) :
  fst (fold_left tally_step l (None, n)) = None.
Proof.
  revert n. induction l as [| d l IH]; intros n; [reflexivity |].
  cbn [fold_left].
  replace (tally_step (None, n) d)
    with (None : option Z,
          if ApiDashboard.known (get_field "congestionLevel" d)
          then S n else n)
    by (unfold tally_step; destruct (ApiDashboard.known _); reflexivity).
  apply IH.
Qed.

Lemma tally_poisoned (l : list fields) (d : fields)
    (acc : option Z * nat) :
  In d l ->
  ApiDashboard.known (get_field "congestionLevel" d) = true ->
  ApiDashboard.congestionMap (get_field "congestionLevel" d) = None ->
  fst (fold_left tally_step l acc) = None.
Proof.
  intros Hin Hk Hm. revert acc.
  induction l as [| d' l IH]; intros acc; [destruct Hin |].
  cbn [fold_left]. destruct Hin as [-> | Hin]; [| now apply IH].
  replace (tally_step acc d) with (None : option Z, S (snd acc))
    by (unfold tally_step; rewrite Hk, Hm; now destruct acc as [[a |] n]).
  apply tally_stays_poisoned.
Qed.

Lemma label_of_tally (l : list fields) :
  fst (ApiDashboard.tally l) = None -> ApiDashboard.congestionLevel l = "Low".
Proof.
  unfold ApiDashboard.congestionLevel, ApiDashboard.avgCongestion.
  destruct (ApiDashboard.tally l) as [sum n]. cbn [fst]. intros ->.
  destruct (0 <? n)%nat; reflexivity.
Qed.

(** X26. GET /api/dashboard of index.js reads the store without changing
    it and labels the congestion from the levels of all signals. When
    every level is one of Low, Medium, High and Unknown, the label is
    decided by the counts alone: "High" when some level is known and the
    High signals number at least three times the Low ones plus the
    Medium ones; otherwise "Moderate" when some level is known and the
    Low signals number at most the Medium ones plus three times the High
    ones; otherwise "Low" - in particular with no signal, or only
    Unknown ones. *)
Theorem dashboard_label_by_counts (w : world) (recentEvents : value)
    (s : state) :
  let all := map snd (map_to_list (signals s)) in
  let r := ApiDashboard.dashboard w recentEvents s in
  (final r = s /\ emissions (trace r) = []) /\
  (store_fault w = false ->
   exists cameras signals,
     responses (trace r)
     = [(200, VObj [("activeCameras", ApiDashboard.count cameras);
                    ("activeSignals", ApiDashboard.count signals);
                    ("congestionLevel",
                     VStr (ApiDashboard.congestionLevel all));
                    ("recentEvents", recentEvents)])]) /\
  (Forall named_level all ->
   let lo := with_level "Low" all in
   let me := with_level "Medium" all in
   let hi := with_level "High" all in
   ApiDashboard.congestionLevel all
   = if (0 <? lo + me + hi)%nat && (3 * lo + me <=? hi)%nat then "High"
     else if (0 <? lo + me + hi)%nat && (lo <=? me + 3 * hi)%nat
          then "Moderate"
          else "Low").
Proof.
  intros all r. split; [| split].
  - subst r. unfold ApiDashboard.dashboard, ApiDashboard.countDocuments,
      find_all. run. unfold final, trace.
    destruct (store_fault w); cbn; now destruct s.
  - intros Hw. subst r.
    unfold ApiDashboard.dashboard, ApiDashboard.countDocuments, find_all.
    run. unfold trace. rewrite Hw.
    cbn -[ApiDashboard.congestionLevel ApiDashboard.count].
    eexists _, _. reflexivity.
  - intros Hall lo me hi.
    unfold ApiDashboard.congestionLevel, ApiDashboard.avgCongestion.
    rewrite tally_fold, (tally_named all 0 0 Hall). fold lo me hi.
    cbn [Nat.add option_map ApiDashboard.at_least].
    destruct (0 <? lo + me + hi)%nat eqn:En;
      cbn [option_map ApiDashboard.at_least andb]; [| reflexivity].
    apply Nat.ltb_lt in En.
    rewrite !at_least_ratio by exact En.
    replace (5 * Z.of_nat (lo + me + hi)
             <=? (0 + Z.of_nat lo + 2 * Z.of_nat me + 3 * Z.of_nat hi) * 2)%Z
      with (3 * lo + me <=? hi)%nat
      by (apply eq_true_iff_eq; rewrite Nat.leb_le, Z.leb_le; lia).
    replace (3 * Z.of_nat (lo + me + hi)
             <=? (0 + Z.of_nat lo + 2 * Z.of_nat me + 3 * Z.of_nat hi) * 2)%Z
      with (lo <=? me + 3 * hi)%nat
      by (apply eq_true_iff_eq; rewrite Nat.leb_le, Z.leb_le; lia).
    reflexivity.
Qed.

Lemma dashboard_label_by_counts_witness :
  store_fault quiet = false /\
  Forall named_level (map snd (map_to_list (signals busy_signals))) /\
  ApiDashboard.congestionLevel (map snd (map_to_list (signals busy_signals)))
  = "High" /\
  exists cameras signals,
    responses (trace (ApiDashboard.dashboard quiet plain_events busy_signals))
    = [(200, VObj [("activeCameras", ApiDashboard.count cameras);
                   ("activeSignals", ApiDashboard.count signals);
                   ("congestionLevel", VStr "High");
                   ("recentEvents", plain_events)])].
Proof.
  assert (Hall : Forall named_level
                   (map snd (map_to_list (signals busy_signals)))).
  { apply Forall_forall. intros d Hd. apply list_elem_of_In in Hd.
    vm_compute in Hd.
    repeat (destruct Hd as [<- | Hd]; [unfold named_level; cbn; tauto |]).
    destruct Hd. }
  destruct (dashboard_label_by_counts quiet plain_events busy_signals)
    as (_ & Hresp & Hlabel).
  specialize (Hlabel Hall). cbv zeta in Hlabel.
  assert (Hhigh : ApiDashboard.congestionLevel
                    (map snd (map_to_list (signals busy_signals))) = "High").
  { rewrite Hlabel. vm_compute. reflexivity. }
  split; [reflexivity |]. split; [exact Hall |]. split; [exact Hhigh |].
  destruct (Hresp eq_refl) as (c & g & Hr). exists c, g.
  rewrite Hr, Hhigh. reflexivity.
Defined.

(** X27. The congestion label of GET /api/dashboard does not depend on the
    order in which the store returns the signals, and signals whose level
    is Unknown have no part in it. One signal whose level is a string
    outside Low, Medium, High and Unknown turns the sum into a
    non-number, and the label is "Low" whatever the other signals say. *)
Theorem dashboard_label_order_unknown_unlisted (l l' : list fields) :
  (Permutation l l' ->
   ApiDashboard.congestionLevel l = ApiDashboard.congestionLevel l') /\
  ApiDashboard.congestionLevel
    (List.filter
       (fun d => ApiDashboard.known (get_field "congestionLevel" d)) l)
  = ApiDashboard.congestionLevel l /\
  (forall d x,
     In d l -> get_field "congestionLevel" d = VStr x ->
     ~ In x ["Low"; "Medium"; "High"; "Unknown"] ->
     ApiDashboard.congestionLevel l = "Low").
Proof.
  split; [| split].
  - intros H. unfold ApiDashboard.congestionLevel, ApiDashboard.avgCongestion.
    now rewrite !tally_fold, (tally_Permutation l l' H).
  - unfold ApiDashboard.congestionLevel, ApiDashboard.avgCongestion.
    now rewrite !tally_fold, tally_skips_unknown.
  - intros d x Hin Hx Hout. apply label_of_tally. rewrite tally_fold.
    repeat (apply not_in_cons_eqb in Hout; destruct Hout as [? Hout]).
    apply (tally_poisoned l d _ Hin).
    + rewrite Hx. cbn [ApiDashboard.known].
      rewrite String.eqb_sym. now rewrite H2.
    + rewrite Hx. cbn [ApiDashboard.congestionMap].
      rewrite (String.eqb_sym x "Low"), (String.eqb_sym x "Medium"),
        (String.eqb_sym x "High"), (String.eqb_sym x "Unknown").
      now rewrite H, H0, H1, H2.
Qed.

Lemma dashboard_label_order_unknown_unlisted_witness :
  Permutation mixed_levels (rev mixed_levels) /\
  ApiDashboard.congestionLevel mixed_levels
  = ApiDashboard.congestionLevel (rev mixed_levels) /\
  In (leveled "Severe") mixed_levels /\
  ~ In "Severe" ["Low"; "Medium"; "High"; "Unknown"] /\
  ApiDashboard.congestionLevel mixed_levels = "Low".
Proof.
  assert (Hperm : Permutation mixed_levels (rev mixed_levels))
    by apply Permutation_rev.
  assert (Hout : ~ In "Severe" ["Low"; "Medium"; "High"; "Unknown"]).
  { cbn. intros H. repeat (destruct H as [H | H]; [discriminate H |]).
    exact H. }
  assert (Hin : In (leveled "Severe") mixed_levels) by (cbn; tauto).
  destruct (dashboard_label_order_unknown_unlisted mixed_levels
              (rev mixed_levels)) as (H1 & _ & H3).
  split; [exact Hperm |]. split; [exact (H1 Hperm) |].
  split; [exact Hin |]. split; [exact Hout |].
  exact (H3 (leveled "Severe") "Severe" Hin eq_refl Hout).
Defined.

(** X28. Each of the six REST writes of index.js answers exactly once.
    A run that answers 200 or 201 announces the change exactly once, to
    every connection; a run that answers 404 or 500 announces nothing and
    leaves the store as it was. *)
Theorem api_write_announced_iff_done (w : world) (id : string) (body : value)
    (s : state) :
  Forall
    (fun h : M unit =>
       let r := h s in
       ((answered r 200 \/ answered r 201) /\
        exists ev payload, emissions (trace r) = [(ToAll, ev, payload)]) \/
       ((answered r 404 \/ answered r 500) /\
        emissions (trace r) = [] /\ final r = s))
    (api_writes w id body).
Proof.
  unfold api_writes.
  repeat (apply List.Forall_cons); try apply List.Forall_nil; cbv beta zeta;
    unfold Index.cameras_post, Index.cameras_put, Index.cameras_delete,
      Index.signals_post, Index.signals_put, Index.signals_delete,
      save_new, save, findById, findByIdAndDelete, answered;
    run; unfold final, trace;
    (destruct (store_fault w);
     [right; cbn; split; [right; eexists; reflexivity | now split] |]);
    cbn [coll].
  - destruct (negb _); cbn -[apply_set];
      [right; split; [right; eexists; reflexivity | now split] |].
    destruct (cameras s !! id); cbn -[apply_set];
      [right; split; [right; eexists; reflexivity | now split] |].
    left. split; [right; eexists; reflexivity | eexists _, _; reflexivity].
  - destruct (cameras s !! id); cbn -[Index.assign_if set_field without_id];
      [| right; split; [left; eexists; reflexivity | now split]].
    left. split; [left; eexists; reflexivity | eexists _, _; reflexivity].
  - destruct (cameras s !! id); cbn;
      [| right; split; [left; eexists; reflexivity | now split]].
    left. split; [left; eexists; reflexivity | eexists _, _; reflexivity].
  - destruct (negb _); cbn -[apply_set];
      [right; split; [right; eexists; reflexivity | now split] |].
    destruct (signals s !! id); cbn -[apply_set];
      [right; split; [right; eexists; reflexivity | now split] |].
    left. split; [right; eexists; reflexivity | eexists _, _; reflexivity].
  - destruct (signals s !! id); cbn -[Index.assign_if set_field without_id];
      [| right; split; [left; eexists; reflexivity | now split]].
    left. split; [left; eexists; reflexivity | eexists _, _; reflexivity].
  - destruct (signals s !! id); cbn;
      [| right; split; [left; eexists; reflexivity | now split]].
    left. split; [left; eexists; reflexivity | eexists _, _; reflexivity].
Qed.
